(** * Chart data assembly for the character-stat line graph and radar chart

    A shallow embedding of the two assemblers of the site's chart scripts:
    [assembleLineGraphObject] (line graph, one dataset per class and stat
    over a level range) and [assembleRadarChartObject] (radar chart, one
    dataset per class, each stat as a percentage of the maximum over all
    classes at one level).

    JavaScript objects used as dictionaries are finite maps with string
    keys, arrays are lists, a property or index that is absent reads as
    [None] (JavaScript's [undefined]), and a thrown error is the [Err]
    branch of [result]. *)

From Stdlib Require Import ZArith QArith Qround Lia String List.
From stdpp Require Import gmap strings list fin_maps.

Open Scope Z_scope.

(** ** JavaScript numbers *)

(** A JavaScript number is a finite value, one of the two infinities or
    NaN.  Finite values are kept as exact rationals: the rounding of IEEE
    doubles, overflow to an infinity and the sign of zero are not
    modelled.  Every zero divisor met in the scripts is a result of
    [Math.max(_, 0)], hence a positive zero. *)
Module Num.

Inductive number : Type :=
| NaN
| NegInf
| Fin (q : Q)
| PosInf.

Definition of_Z (z : Z) : number := Fin (inject_Z z).
Definition of_nat (n : nat) : number := of_Z (Z.of_nat n).

(** The operator [x / y]. *)
Definition div (x y : number) : number :=
  match x, y with
  | NaN, _ | _, NaN => NaN
  | Fin a, Fin b =>
      if Qeq_bool b 0
      then match (a ?= 0)%Q with
           | Eq => NaN
           | Lt => NegInf
           | Gt => PosInf
           end
      else Fin (Qred (a / b))
  | Fin _, (PosInf | NegInf) => Fin 0
  | PosInf, Fin b => if Qle_bool 0 b then PosInf else NegInf
  | NegInf, Fin b => if Qle_bool 0 b then NegInf else PosInf
  | (PosInf | NegInf), (PosInf | NegInf) => NaN
  end.

Definition mul_inf (a : Q) (pos : bool) : number :=
  match (a ?= 0)%Q with
  | Eq => NaN
  | Lt => if pos then NegInf else PosInf
  | Gt => if pos then PosInf else NegInf
  end.

(** The operator [x * y]. *)
Definition mul (x y : number) : number :=
  match x, y with
  | NaN, _ | _, NaN => NaN
  | Fin a, Fin b => Fin (Qred (a * b))
  | Fin a, PosInf | PosInf, Fin a => mul_inf a true
  | Fin a, NegInf | NegInf, Fin a => mul_inf a false
  | PosInf, PosInf | NegInf, NegInf => PosInf
  | PosInf, NegInf | NegInf, PosInf => NegInf
  end.

(** [Math.max(x, y)]: NaN as soon as one argument is NaN. *)
Definition max (x y : number) : number :=
  match x, y with
  | NaN, _ | _, NaN => NaN
  | PosInf, _ | _, PosInf => PosInf
  | NegInf, z | z, NegInf => z
  | Fin a, Fin b => if Qle_bool a b then Fin b else Fin a
  end.

(** [ToNumber] of a property read: [undefined] becomes NaN. *)
Definition toNumber (v : option number) : number :=
  match v with
  | Some n => n
  | None => NaN
  end.

Definition isNaN (x : number) : bool :=
  match x with NaN => true | _ => false end.

(** Numeric comparison [x <= y]; false as soon as one side is NaN. *)
Definition leb (x y : number) : bool :=
  match x, y with
  | NaN, _ | _, NaN => false
  | NegInf, _ | _, PosInf => true
  | _, NegInf | PosInf, _ => false
  | Fin a, Fin b => Qle_bool a b
  end.

(** Numeric equality [x == y] of two numbers. *)
Definition eqb (x y : number) : bool :=
  match x, y with
  | Fin a, Fin b => Qeq_bool a b
  | PosInf, PosInf | NegInf, NegInf => true
  | _, _ => false
  end.

Definition zero : number := Fin 0.

End Num.

Export Num (number, NaN, NegInf, Fin, PosInf).

(** ** Errors *)

Inductive error : Type :=
| NotFoundError
| UnknownStatError
| RangeMismatchError.

Inductive result (A : Type) : Type :=
| Ok (a : A)
| Err (e : error).

Arguments Ok {A} a.
Arguments Err {A} e.

#[export] Instance result_ret : MRet result := fun A a => Ok a.
#[export] Instance result_bind : MBind result := fun A B f r =>
  match r with
  | Ok a => f a
  | Err e => Err e
  end.

(** ** Level range *)

(** [Math.ceil(x / 5) * 5] on an integer level.  The integer result is
    the result of the doubles for levels of magnitude up to 2^50 (see
    [exactLevel]); beyond 2^53 the doubles round. *)
Definition ceilToFive (x : Z) : Z := Qceiling (inject_Z x / 5) * 5.

(** The first statements of [assembleLineGraphObject]: the lower bound is
    raised to 5, the upper bound lowered to 200, then both are rounded up
    to a multiple of 5. *)
Definition clampStartLevel (startLevel : Z) : Z :=
  ceilToFive (if startLevel <? 5 then 5 else startLevel).

Definition clampEndLevel (endLevel : Z) : Z :=
  ceilToFive (if endLevel >? 200 then 200 else endLevel).

(** [createLevelArray]: the loop [for (i = lower; i <= upper; i = i + 5)],
    with the number of iterations left as fuel.  On doubles [i + 5] is
    exact, and the loop ends, for bounds of magnitude up to 2^50 (see
    [exactLevel]). *)
Fixpoint levelLoop (fuel : nat) (i upper : Z) (levelArray : list Z) : list Z :=
  match fuel with
  | O => levelArray
  | S fuel' =>
      if i <=? upper
      then levelLoop fuel' (i + 5) upper (levelArray ++ [i])
      else levelArray
  end.

Definition createLevelArray (lower upper : Z) : list Z :=
  levelLoop (Z.to_nat (upper - lower + 1)) lower upper [].

(** ** Data model *)

Record RGB : Type := mkRGB { red : number; green : number; blue : number }.

(** One row of a class table: [{ level, stats }]. *)
Record LevelEntry : Type := mkLevelEntry {
  level : Z;
  stats : gmap string number
}.

(** The stat table of one class, as the scripts read it:
    [characterClassData.levelData[i].stats[statName]].  The dataset is
    an array of such tables ([createStatAtLevelArray] walks it by index),
    so each table carries the identifier of its class. *)
Record ClassData : Type := mkClassData {
  characterClass : string;
  levelData : list LevelEntry
}.

(** An entry of the class colour table, read as [characterColor.color]. *)
Record CharacterColor : Type := mkCharacterColor { color : RGB }.

(** The template string [rgba(r, g, b, a)], kept as its components. *)
Record Rgba : Type := mkRgba { channels : RGB; alpha : Q }.

Definition rgba (rgb : RGB) (a : Q) : Rgba :=
  {| channels := rgb; alpha := a |}.

(** A dataset of either chart.  An element of [data] is a number, or
    [None] where the script pushed [undefined]. *)
Record DataSet : Type := mkDataSet {
  data : list (option number);
  label : string;
  backgroundColor : Rgba;
  borderColor : Rgba;
  pointBorderColor : Rgba;
  pointBackgroundColor : Rgba;
  fill : bool
}.

(** A chart label is a number (a level) or a string (a stat name). *)
Inductive jsval : Type :=
| JNumber (n : number)
| JString (s : string).

Definition isString (v : jsval) : bool :=
  match v with JString _ => true | JNumber _ => false end.

Definition isNumber (v : jsval) : bool :=
  match v with JNumber _ => true | JString _ => false end.

Record Title : Type := mkTitle { display : bool; text : string }.

(** The object literal of [createLineGraphObject]: [options] sits inside
    [data], next to [labels] and [datasets]. *)
Record LineOptions : Type := mkLineOptions { lineTitle : Title }.

Record LineData : Type := mkLineData {
  lineLabels : list jsval;
  lineDatasets : list DataSet;
  lineOptions : LineOptions
}.

Record LineGraphObject : Type := mkLineGraphObject {
  lineType : string;
  lineData : LineData
}.

(** The object literal of [createRadarChartObject]: [options] is a
    sibling of [data]. *)
Record Ticks : Type := mkTicks {
  beginAtZero : bool;
  ticksMin : Z;
  ticksMax : Z;
  stepSize : Z
}.

Record Scale : Type := mkScale { ticks : Ticks }.

Record Legend : Type := mkLegend { position : string }.

Record RadarOptions : Type := mkRadarOptions {
  radarTitle : Title;
  scale : Scale;
  legend : Legend
}.

Record RadarData : Type := mkRadarData {
  radarLabels : list jsval;
  radarDatasets : list DataSet
}.

Record RadarChartObject : Type := mkRadarChartObject {
  radarType : string;
  radarData : RadarData;
  radarOptions : RadarOptions
}.

(** ** Stat repository and colour tables *)

(** Modelled from the spec: [getCharacterClassDataObject] is not among
    the sources.  The accessor looks a class identifier up in the
    dataset and fails with [NotFoundError] when the dataset has no entry
    for it. *)
Fixpoint getCharacterClassDataObject
    (name : string) (allClassData : list ClassData) : result ClassData :=
  match allClassData with
  | [] => Err NotFoundError
  | c :: rest =>
      if String.eqb (characterClass c) name
      then Ok c
      else getCharacterClassDataObject name rest
  end.

Definition levelInRange (startLevel endLevel : Z) (e : LevelEntry) : bool :=
  (startLevel <=? level e) && (level e <=? endLevel).

(** Modelled from the spec: [getCharacterClassDataInRange] is not among
    the sources.  It keeps the entries of the table whose level lies in
    [startLevel, endLevel], bounds included, in the table's order. *)
Definition getCharacterClassDataInRange
    (startLevel endLevel : Z) (c : ClassData) : ClassData :=
  {| characterClass := characterClass c;
     levelData := List.filter (levelInRange startLevel endLevel) (levelData c) |}.

(** The closed set of stat names. *)
Definition statEnum : list string :=
  ["ATP"; "DFP"; "MST"; "ATA"; "EVP"; "HP"; "TP"]%string.

Definition isStatName (s : string) : bool :=
  existsb (String.eqb s) statEnum.

(** Modelled from the spec: [getCharacterColor] is not among the
    sources.  A direct lookup of the class in the colour table, failing
    with [NotFoundError] when the class has no colour. *)
Definition getCharacterColor
    (characterColors : gmap string CharacterColor) (name : string)
    : result CharacterColor :=
  match characterColors !! name with
  | Some c => Ok c
  | None => Err NotFoundError
  end.

Section Assemblers.

(** The channel shift applied to a stat's base colour is an internal
    choice of [getStatColor]; the assemblers are read for any such
    shift. *)
Variable shiftColor : RGB -> number -> RGB.

(** The way [getStatsAtLevel] picks the row of a class table for a
    level is not fixed by the sources at hand either. *)
Variable getStatsAtLevel : ClassData -> Z -> gmap string number.

(** Modelled from the spec: [getStatColor] is not among the sources.
    It fails with [UnknownStatError] for a name outside the stat set
    (or without a base colour), and otherwise shifts the stat's base
    colour by the modifier. *)
Definition getStatColor
    (statName : string) (allStatColors : gmap string RGB)
    (modifier : number) : result RGB :=
  if isStatName statName
  then match allStatColors !! statName with
       | Some base => Ok (shiftColor base modifier)
       | None => Err UnknownStatError
       end
  else Err UnknownStatError.

(** *** Line graph *)

(** The read [stats[statName]] is a lookup in the map of the row's own
    properties: that is what JavaScript reads for every name that
    [Object.prototype] does not have (see [objectPrototypeNames]), the
    seven stat names among them. *)
Definition createSingleStatArray
    (statName : string) (characterClassData : ClassData)
    : list (option number) :=
  fold_left (fun singleStatArray entry =>
               singleStatArray ++ [stats entry !! statName])
            (levelData characterClassData) [].

Definition createLineGraphObject
    (labels : list jsval) (dataSets : list DataSet) (title : string)
    : LineGraphObject :=
  {| lineType := "line";
     lineData :=
       {| lineLabels := labels;
          lineDatasets := dataSets;
          lineOptions :=
            {| lineTitle := {| display := true; text := title |} |} |} |}.

Definition createLineChartDataSet
    (data0 : list (option number)) (label0 : string) (rgb : RGB) : DataSet :=
  {| data := data0;
     label := label0;
     backgroundColor := rgba rgb (1 # 2);
     borderColor := rgba rgb (3 # 4);
     pointBorderColor := rgba rgb 1;
     pointBackgroundColor := rgba rgb 1;
     fill := false |}.

Section LineLoops.

Variables (selectedClasses selectedStats : list string).
Variable allClassData : list ClassData.
Variable allStatColors : gmap string RGB.
Variables (startLevel endLevel : Z).

Definition dataLabel (cls stat : string) : string :=
  cls +:+ "(" +:+ stat +:+ ")".

(** The body of the inner loop, for class index [i]. *)
Definition lineDataSet (i : nat) (cls stat : string) : result DataSet :=
  characterStatsDataObject ← getCharacterClassDataObject cls allClassData;
  let characterStatsDataObjectInRange :=
    getCharacterClassDataInRange startLevel endLevel characterStatsDataObject in
  let statArray := createSingleStatArray stat characterStatsDataObjectInRange in
  let modifier :=
    Num.mul (Num.of_nat i)
            (Num.div (Num.of_Z 100) (Num.of_nat (length selectedClasses))) in
  rgb ← getStatColor stat allStatColors modifier;
  Ok (createLineChartDataSet statArray (dataLabel cls stat) rgb).

(** [for (j ...)] over the remaining stats, pushing onto [dataSets]. *)
Fixpoint statLoop (i : nat) (cls : string) (remaining : list string)
    (dataSets : list DataSet) : result (list DataSet) :=
  match remaining with
  | [] => Ok dataSets
  | stat :: rest =>
      dataSet ← lineDataSet i cls stat;
      statLoop i cls rest (dataSets ++ [dataSet])
  end.

(** [for (i ...)] over the remaining classes. *)
Fixpoint classLoop (i : nat) (remaining : list string)
    (dataSets : list DataSet) : result (list DataSet) :=
  match remaining with
  | [] => Ok dataSets
  | cls :: rest =>
      dataSets' ← statLoop i cls selectedStats dataSets;
      classLoop (S i) rest dataSets'
  end.

End LineLoops.

Definition assembleLineGraphObject
    (selectedClasses selectedStats : list string) (title : string)
    (allClassData : list ClassData) (allStatColors : gmap string RGB)
    (startLevel endLevel : Z) : result LineGraphObject :=
  let startLevel := clampStartLevel startLevel in
  let endLevel := clampEndLevel endLevel in
  let scaleLabels := createLevelArray startLevel endLevel in
  dataSets ← classLoop selectedClasses selectedStats allClassData
               allStatColors startLevel endLevel 0 selectedClasses [];
  Ok (createLineGraphObject
        (map (fun l => JNumber (Num.of_Z l)) scaleLabels) dataSets title).


(** *** Radar chart *)

(** The object literal both radar helpers start from. *)
Definition zeroStats : gmap string number :=
  list_to_map
    [("ATP", Num.zero); ("ATA", Num.zero); ("DFP", Num.zero);
     ("EVP", Num.zero); ("MST", Num.zero); ("TP", Num.zero);
     ("HP", Num.zero)]%string.

(** [(value / maximum) * 100], on exact rationals where the doubles
    round: bounds, order and the results of a zero divisor are those of
    the doubles, the last digits are not. *)
Definition percentage (value maximum : option number) : number :=
  Num.mul (Num.div (Num.toNumber value) (Num.toNumber maximum))
          (Num.of_Z 100).

(** The assignment [percentageStats[name] = v], like the one of
    [createMaximumStatsObject] and the read of [createStatArray], is an
    insert into, or a lookup in, the map of the object's own properties:
    that is what JavaScript does for every name that [Object.prototype]
    does not have (see [objectPrototypeNames]). *)
Definition createPercentageStats
    (characterStatsAtLevel maximumStatsObject : gmap string number)
    (statNames : list string) : gmap string number :=
  fold_left
    (fun percentageStats statName =>
       <[statName := percentage (characterStatsAtLevel !! statName)
                                (maximumStatsObject !! statName)]>
         percentageStats)
    statNames zeroStats.

Definition createStatAtLevelArray
    (allCharacters : list ClassData) (level0 : Z)
    : list (gmap string number) :=
  fold_left
    (fun statsAtLevel character =>
       statsAtLevel ++ [getStatsAtLevel character level0])
    allCharacters [].

(** The inner loop of [createMaximumStatsObject], for one class. *)
Definition maximumStep
    (statNames : list string)
    (maximumStats characterStats : gmap string number)
    : gmap string number :=
  fold_left
    (fun maximumStats statName =>
       <[statName := Num.max (Num.toNumber (characterStats !! statName))
                             (Num.toNumber (maximumStats !! statName))]>
         maximumStats)
    statNames maximumStats.

Definition createMaximumStatsObject
    (allCharacterStatsAtLevel : list (gmap string number))
    (statNames : list string) : gmap string number :=
  fold_left (maximumStep statNames) allCharacterStatsAtLevel zeroStats.

Definition createStatArray
    (percentageStatsObject : gmap string number)
    (statNames : list string) : list (option number) :=
  fold_left
    (fun statArray statName =>
       statArray ++ [percentageStatsObject !! statName])
    statNames [].

Definition createRadarChartObject
    (labels : list jsval) (datasets : list DataSet) (title : string)
    : RadarChartObject :=
  {| radarType := "radar";
     radarData := {| radarLabels := labels; radarDatasets := datasets |};
     radarOptions :=
       {| radarTitle := {| display := true; text := title |};
          scale :=
            {| ticks :=
                 {| beginAtZero := true;
                    ticksMin := 0;
                    ticksMax := 100;
                    stepSize := 10 |} |};
          legend := {| position := "top" |} |} |}.

Definition createRadarChartDataSet
    (className : string) (percentageStatsArray : list (option number))
    (rgb : RGB) : DataSet :=
  {| data := percentageStatsArray;
     label := className;
     backgroundColor := rgba rgb (1 # 2);
     borderColor := rgba rgb (3 # 4);
     pointBorderColor := rgba rgb 1;
     pointBackgroundColor := rgba rgb 1;
     fill := true |}.

Section RadarLoop.

Variable allClassData : list ClassData.
Variable characterColors : gmap string CharacterColor.
Variable selectedLevel : Z.
Variable statNames : list string.

(** The body of the loop of [createRadarChartDataSets]. *)
Definition radarDataSet (name : string) : result DataSet :=
  characterClassData ← getCharacterClassDataObject name allClassData;
  let characterStatsAtLevel :=
    getStatsAtLevel characterClassData selectedLevel in
  let statsAtLevel := createStatAtLevelArray allClassData selectedLevel in
  let maximumStatsObject :=
    createMaximumStatsObject statsAtLevel statNames in
  let percentageStatsObject :=
    createPercentageStats characterStatsAtLevel maximumStatsObject
                          statNames in
  let percentageStatArray :=
    createStatArray percentageStatsObject statNames in
  characterColor ← getCharacterColor characterColors name;
  Ok (createRadarChartDataSet name percentageStatArray
                              (color characterColor)).

Fixpoint radarLoop (remaining : list string) (dataSets : list DataSet)
    : result (list DataSet) :=
  match remaining with
  | [] => Ok dataSets
  | name :: rest =>
      dataSet ← radarDataSet name;
      radarLoop rest (dataSets ++ [dataSet])
  end.

End RadarLoop.

Definition createRadarChartDataSets
    (selectedCharacterClasses : list string)
    (allClassData : list ClassData)
    (characterColors : gmap string CharacterColor)
    (selectedLevel : Z) (statNames : list string)
    : result (list DataSet) :=
  radarLoop allClassData characterColors selectedLevel statNames
            selectedCharacterClasses [].

Definition assembleRadarChartObject
    (selectedCharacterClasses : list string)
    (allClassData : list ClassData)
    (characterColors : gmap string CharacterColor)
    (selectedLevel : Z) (statNames : list string)
    : result RadarChartObject :=
  dataSets ← createRadarChartDataSets selectedCharacterClasses allClassData
               characterColors selectedLevel statNames;
  Ok (createRadarChartObject (map JString statNames) dataSets "Class stats").

End Assemblers.

(** ** Running a loop body over a list *)

(** Both assemblers run a fallible body over a list and push each result:
    the first error ends the loop. *)
Fixpoint collect {A B : Type} (f : A -> result B) (l : list A)
    : result (list B) :=
  match l with
  | [] => Ok []
  | a :: rest =>
      b ← f a;
      bs ← collect f rest;
      Ok (b :: bs)
  end.

(** The (class index, class, stat) triples in the order the nested loops
    of the line graph visit them. *)
Fixpoint pairsFrom (i : nat) (classes stats0 : list string)
    : list (nat * string * string) :=
  match classes with
  | [] => []
  | cls :: rest => map (fun stat => (i, cls, stat)) stats0 ++ pairsFrom (S i) rest stats0
  end.

(** The cross-class maximum of one stat as the radar chart computes it:
    [Math.max] folded over the stats of the classes, from the initial
    value of the stat name (0 for the seven names of the object literal,
    [undefined] for any other). *)
Definition maximumOf (statName : string) (allStats : list (gmap string number))
    : number :=
  fold_left (fun m characterStats =>
               Num.max (Num.toNumber (characterStats !! statName)) m)
            allStats (Num.toNumber (zeroStats !! statName)).

(** The loop body of the line graph, on the clamped level range. *)
Definition lineBody (shiftColor : RGB -> number -> RGB)
    (selectedClasses : list string) (allClassData : list ClassData)
    (allStatColors : gmap string RGB) (startLevel endLevel : Z)
    : nat * string * string -> result DataSet :=
  fun '(i, cls, stat) =>
    lineDataSet shiftColor selectedClasses allClassData allStatColors
      (clampStartLevel startLevel) (clampEndLevel endLevel) i cls stat.

Definition lineLabelsOf (startLevel endLevel : Z) : list jsval :=
  map (fun l => JNumber (Num.of_Z l))
      (createLevelArray (clampStartLevel startLevel) (clampEndLevel endLevel)).

(** The object of cross-class maxima a radar dataset is divided by. *)
Definition maximumStatsAt
    (getStatsAtLevel : ClassData -> Z -> gmap string number)
    (allClassData : list ClassData) (selectedLevel : Z)
    (statNames : list string) : gmap string number :=
  createMaximumStatsObject
    (createStatAtLevelArray getStatsAtLevel allClassData selectedLevel)
    statNames.

(** A level range is valid when it lies inside the supported levels. *)
Definition validLevelRange (startLevel endLevel : Z) : Prop :=
  5 <= startLevel /\ startLevel <= endLevel /\ endLevel <= 200.

(** The levels on which the arithmetic of doubles that the scripts do on
    a level ([x / 5], [Math.ceil], [* 5], [i + 5]) is exact. *)
Definition exactLevel (l : Z) : Prop := - 2 ^ 50 <= l <= 2 ^ 50.

(** The property names every object has from [Object.prototype]: a read
    of one of them on an object literal finds the inherited value, and
    an assignment to [__proto__] sets no property. *)
Definition objectPrototypeNames : list string :=
  ["__proto__"; "constructor"; "hasOwnProperty"; "isPrototypeOf";
   "propertyIsEnumerable"; "toLocaleString"; "toString"; "valueOf";
   "__defineGetter__"; "__defineSetter__"; "__lookupGetter__";
   "__lookupSetter__"]%string.

(** ** A small dataset to run the assemblers on *)

Module Sample.

Open Scope string_scope.

(** Modelled from the spec: the channel shift of [getStatColor] is not
    among the sources.  A deterministic shift that adds the modifier to
    each channel and saturates at 255. *)
Definition saturate (channel modifier : number) : number :=
  match channel, modifier with
  | Fin c, Fin m =>
      if Qle_bool 255 (c + m) then Fin 255
      else if Qle_bool (c + m) 0 then Fin 0
      else Fin (Qred (c + m))
  | _, _ => channel
  end.

Definition shiftColor (rgb : RGB) (modifier : number) : RGB :=
  {| red := saturate (red rgb) modifier;
     green := saturate (green rgb) modifier;
     blue := saturate (blue rgb) modifier |}.

(** The row of a table whose level is nearest to [level0]: the first
    of the nearest rows, and none for an empty table. *)
Definition nearestRow (level0 : Z) (rows : list LevelEntry)
    : option LevelEntry :=
  fold_left
    (fun best e =>
       match best with
       | None => Some e
       | Some b =>
           if (Z.abs (level e - level0) <? Z.abs (level b - level0))%Z
           then Some e else Some b
       end)
    rows None.

(** Modelled from the spec: [getStatsAtLevel] is not among the
    sources.  The stats of the row of the requested level, and of the
    nearest defined level when the table has no row of that level; an
    empty snapshot for an empty table. *)
Definition getStatsAtLevel (c : ClassData) (level0 : Z)
    : gmap string number :=
  match nearestRow level0 (levelData c) with
  | Some e => stats e
  | None => ∅
  end.

Definition row (l atp hp tp : Z) : LevelEntry :=
  {| level := l;
     stats := list_to_map
                [("ATP", Num.of_Z atp); ("HP", Num.of_Z hp);
                 ("TP", Num.of_Z tp)] |}.

(** Two classes over the levels 5, 10, 15; an android has no TP. *)
Definition HUcast : ClassData :=
  {| characterClass := "HUcast";
     levelData := [row 5 40 30 0; row 10 60 45 0; row 15 80 60 0] |}.

Definition RAmar : ClassData :=
  {| characterClass := "RAmar";
     levelData := [row 5 30 24 10; row 10 45 36 20; row 15 50 48 30] |}.

Definition allClassData : list ClassData := [HUcast; RAmar].

(** A dataset in which no class has any TP. *)
Definition androids : list ClassData :=
  [HUcast; {| characterClass := "RAcast";
              levelData := [row 5 35 28 0; row 10 50 40 0; row 15 70 55 0] |}].

(** A table that misses the row of level 10. *)
Definition gappy : list ClassData :=
  [{| characterClass := "HUcast";
      levelData := [row 5 40 30 0; row 15 80 60 0] |}].

Definition rgbOf (r g b : Z) : RGB :=
  {| red := Num.of_Z r; green := Num.of_Z g; blue := Num.of_Z b |}.

Definition allStatColors : gmap string RGB :=
  list_to_map
    [("ATP", rgbOf 200 30 30); ("HP", rgbOf 30 200 30);
     ("TP", rgbOf 30 30 200)].

Definition allCharacterColors : gmap string CharacterColor :=
  list_to_map
    [("HUcast", {| color := rgbOf 250 120 0 |});
     ("RAmar", {| color := rgbOf 0 120 250 |});
     ("RAcast", {| color := rgbOf 0 250 120 |})].

Definition lineGraph
    (selectedClasses selectedStats : list string)
    (dataset : list ClassData) (startLevel endLevel : Z)
    : result LineGraphObject :=
  assembleLineGraphObject shiftColor selectedClasses selectedStats
    "Character stat growth" dataset allStatColors startLevel endLevel.

Definition radarChart
    (selectedClasses : list string) (dataset : list ClassData)
    (selectedLevel : Z) (statNames : list string)
    : result RadarChartObject :=
  assembleRadarChartObject getStatsAtLevel selectedClasses dataset
    allCharacterColors selectedLevel statNames.

End Sample.

(** ** The click handlers of the two pages *)

(** The colour modifier of the class with index [i] among
    [selectedClassesLength] selected classes, as [lineDataSet] computes
    it: [i * (100 / selectedClasses.length)]. *)
Definition lineModifier (i selectedClassesLength : nat) : number :=
  Num.mul (Num.of_nat i)
          (Num.div (Num.of_Z 100) (Num.of_nat selectedClassesLength)).

(** [if (cond) { arr.push(x); }] *)
Definition pushIf (cond : bool) (x : string) (arr : list string)
    : list string :=
  if cond then arr ++ [x] else arr.

(** The class check boxes of the page, in the order the handler reads
    them. *)
Definition classNames : list string :=
  ["HUcast"; "HUmar"; "HUcaseal"; "HUnewearl";
   "RAmar"; "RAmarl"; "RAcast"; "RAcaseal";
   "FOmar"; "FOmarl"; "FOnewm"; "FOnewearl"]%string.

(** [getSelectedClasses]; [checked sel] is
    [document.querySelector(sel).checked]. *)
Definition getSelectedClasses (checked : string -> bool) : list string :=
  let selectedCharacterClasses := [] in
  let selectedCharacterClasses :=
    pushIf (checked "#cbHUcast") "HUcast" selectedCharacterClasses in
  let selectedCharacterClasses :=
    pushIf (checked "#cbHUmar") "HUmar" selectedCharacterClasses in
  let selectedCharacterClasses :=
    pushIf (checked "#cbHUcaseal") "HUcaseal" selectedCharacterClasses in
  let selectedCharacterClasses :=
    pushIf (checked "#cbHUnewearl") "HUnewearl" selectedCharacterClasses in
  let selectedCharacterClasses :=
    pushIf (checked "#cbRAmar") "RAmar" selectedCharacterClasses in
  let selectedCharacterClasses :=
    pushIf (checked "#cbRAmarl") "RAmarl" selectedCharacterClasses in
  let selectedCharacterClasses :=
    pushIf (checked "#cbRAcast") "RAcast" selectedCharacterClasses in
  let selectedCharacterClasses :=
    pushIf (checked "#cbRAcaseal") "RAcaseal" selectedCharacterClasses in
  let selectedCharacterClasses :=
    pushIf (checked "#cbFOmar") "FOmar" selectedCharacterClasses in
  let selectedCharacterClasses :=
    pushIf (checked "#cbFOmarl") "FOmarl" selectedCharacterClasses in
  let selectedCharacterClasses :=
    pushIf (checked "#cbFOnewm") "FOnewm" selectedCharacterClasses in
  let selectedCharacterClasses :=
    pushIf (checked "#cbFOnewearl") "FOnewearl" selectedCharacterClasses in
  selectedCharacterClasses.

(** [getSelectedStats] *)
Definition getSelectedStats (checked : string -> bool) : list string :=
  let selectedStats := [] in
  let selectedStats := pushIf (checked "#cbATP") "ATP" selectedStats in
  let selectedStats := pushIf (checked "#cbDFP") "DFP" selectedStats in
  let selectedStats := pushIf (checked "#cbMST") "MST" selectedStats in
  let selectedStats := pushIf (checked "#cbATA") "ATA" selectedStats in
  let selectedStats := pushIf (checked "#cbEVP") "EVP" selectedStats in
  let selectedStats := pushIf (checked "#cbHP") "HP" selectedStats in
  let selectedStats := pushIf (checked "#cbTP") "TP" selectedStats in
  selectedStats.

(** [createErrorDivs]: [divs = divs + div + message + endDiv] for each
    message. *)
Definition createErrorDivs (messages : list string) : string :=
  let div := "<div>"%string in
  let endDiv := "</div>"%string in
  fold_left (fun divs message => ((divs +:+ div) +:+ message) +:+ endDiv)
            messages ""%string.

(** The element [#error]: its class list and its markup.  The markup is
    kept as the string assigned to [innerHTML]. *)
Record Element : Type := mkElement {
  classList : list string;
  innerHTML : string
}.

(** [classList.add(token)]: a class list holds a token once. *)
Definition classListAdd (token : string) (tokens : list string)
    : list string :=
  if existsb (String.eqb token) tokens then tokens else tokens ++ [token].

(** [classList.remove(token)] *)
Definition classListRemove (token : string) (tokens : list string)
    : list string :=
  List.filter (fun t => negb (String.eqb token t)) tokens.

Definition showError (divs : string) (element : Element) : Element :=
  {| classList := classListRemove "hidden" (classList element);
     innerHTML := divs |}.

Definition hideError (element : Element) : Element :=
  {| classList := classListAdd "hidden" (classList element);
     innerHTML := "" |}.

Definition isHidden (element : Element) : bool :=
  existsb (String.eqb "hidden") (classList element).

(** The charts of the chart library on one canvas: [new Chart] makes a
    chart that stays alive, with the object it was given, until its
    [destroy] is called. *)
Record Charts (A : Type) : Type := mkCharts {
  created : nat;
  alive : gmap nat A
}.

Arguments mkCharts {A} created alive.
Arguments created {A} c.
Arguments alive {A} c.

Definition newChart {A : Type} (config : A) (charts : Charts A)
    : nat * Charts A :=
  (created charts,
   {| created := S (created charts);
      alive := <[created charts := config]> (alive charts) |}).

Definition destroyChart {A : Type} (chart : nat) (charts : Charts A)
    : Charts A :=
  {| created := created charts; alive := delete chart (alive charts) |}.

(** [if (chart) { chart.destroy(); }] *)
Definition destroyIfSet {A : Type} (chart : option nat) (charts : Charts A)
    : Charts A :=
  match chart with
  | Some c => destroyChart c charts
  | None => charts
  end.

(** The locals [errorMessages] and [isValid] of a handler. *)
Record Validation : Type := mkValidation {
  errorMessages : list string;
  isValid : bool
}.

(** [if (cond) { errorMessages.push(message); isValid = false; }] *)
Definition rejectIf (cond : bool) (message : string) (v : Validation)
    : Validation :=
  if cond
  then {| errorMessages := errorMessages v ++ [message]; isValid := false |}
  else v.

(** A level read with [parseInt(text, 10)]: an integer, or [None] for
    NaN.  A comparison with NaN is false. *)
Definition levelIsNaN (l : option Z) : bool :=
  match l with Some _ => false | None => true end.

Definition levelLt (l : option Z) (k : Z) : bool :=
  match l with Some v => v <? k | None => false end.

Definition levelGt (l : option Z) (k : Z) : bool :=
  match l with Some v => v >? k | None => false end.

Definition levelGe (l1 l2 : option Z) : bool :=
  match l1, l2 with
  | Some v1, Some v2 => v1 >=? v2
  | _, _ => false
  end.

(** The checks of [lineGraphClick], from the two clamps to the last
    test, on the levels read and the two selections. *)
Definition lineStartLevel (tbStart : option Z) : option Z :=
  if levelLt tbStart 5 then Some 5 else tbStart.

Definition lineEndLevel (tbEnd : option Z) : option Z :=
  if levelGt tbEnd 200 then Some 200 else tbEnd.

Definition lineGraphValidation
    (startLevel endLevel : option Z)
    (selectedClasses selectedStats : list string) : Validation :=
  let v := {| errorMessages := []; isValid := true |} in
  let v := rejectIf (levelIsNaN startLevel)
                    "Please enter a valid start level." v in
  let v := rejectIf (levelIsNaN endLevel)
                    "Please enter a valid end level." v in
  let v := rejectIf (length selectedClasses <? 1)%nat
                    "Please select atleast one class." v in
  let v := rejectIf (length selectedStats <? 1)%nat
                    "Please select atleast one stat." v in
  let v := rejectIf (levelGe startLevel endLevel)
                    "Start level should be lower than end level." v in
  v.

(** What a click reads from the page. *)
Record LineInputs : Type := mkLineInputs {
  tbStart : option Z;
  tbEnd : option Z;
  lineChecked : string -> bool
}.

(** The state a click of the line page works on: the global [graph],
    the element [#error] and the charts of the canvas. *)
Record LinePage : Type := mkLinePage {
  graph : option nat;
  lineError : Element;
  lineCharts : Charts LineGraphObject
}.

Section LineGraphClick.

Variable shiftColor : RGB -> number -> RGB.
(** The globals [_allClassData] and [_allStatColors]. *)
Variable _allClassData : list ClassData.
Variable _allStatColors : gmap string RGB.

(** [lineGraphClick]: the page after the click, and the error the
    assembler threw, if any. *)
Definition lineGraphClick (inputs : LineInputs) (page : LinePage)
    : LinePage * option error :=
  let charts := destroyIfSet (graph page) (lineCharts page) in
  let element := hideError (lineError page) in
  let startLevel := lineStartLevel (tbStart inputs) in
  let endLevel := lineEndLevel (tbEnd inputs) in
  let selectedClasses := getSelectedClasses (lineChecked inputs) in
  let selectedStats := getSelectedStats (lineChecked inputs) in
  let v := lineGraphValidation startLevel endLevel
                               selectedClasses selectedStats in
  if isValid v then
    match startLevel, endLevel with
    | Some startLevel, Some endLevel =>
        let title := "Character stat growth"%string in
        match assembleLineGraphObject shiftColor selectedClasses
                selectedStats title _allClassData _allStatColors
                startLevel endLevel with
        | Ok lineGraphDataObject =>
            let (chart, charts) := newChart lineGraphDataObject charts in
            ({| graph := Some chart; lineError := element;
                lineCharts := charts |}, None)
        | Err e =>
            ({| graph := graph page; lineError := element;
                lineCharts := charts |}, Some e)
        end
    | _, _ =>
        (* not reached: a level that is NaN makes the click invalid *)
        ({| graph := graph page; lineError := element;
            lineCharts := charts |}, None)
    end
  else
    let divs := createErrorDivs (errorMessages v) in
    ({| graph := graph page; lineError := showError divs element;
        lineCharts := charts |}, None).

(** A series of clicks, each on the page the one before left. *)
Definition lineGraphClicks (clicks : list LineInputs) (page : LinePage)
    : LinePage :=
  fold_left (fun page inputs => fst (lineGraphClick inputs page)) clicks page.

End LineGraphClick.

(** A line page with no chart yet and the error element hidden. *)
Definition initialLinePage : LinePage :=
  {| graph := None;
     lineError := {| classList := ["hidden"]%string; innerHTML := "" |};
     lineCharts := {| created := 0; alive := ∅ |} |}.

(** The level [radarChartClick] passes on: a level that is below 5,
    above 200 or NaN is replaced by 205. *)
Definition radarSelectedLevel (tbLevel : option Z) : Z :=
  match tbLevel with
  | Some l => if (l <? 5) || (l >? 200) then 205 else l
  | None => 205
  end.

Definition radarChartValidation (selectedClasses : list string) : Validation :=
  let v := {| errorMessages := []; isValid := true |} in
  rejectIf (length selectedClasses <? 1)%nat
           "Please select atleast one class." v.

Record RadarInputs : Type := mkRadarInputs {
  tbLevel : option Z;
  radarChecked : string -> bool
}.

Record RadarPage : Type := mkRadarPage {
  chart : option nat;
  radarError : Element;
  radarCharts : Charts RadarChartObject
}.

Section RadarChartClick.

Variable getStatsAtLevel : ClassData -> Z -> gmap string number.
(** The globals [_allClassData], [_allCharacterColors], [_statNames]. *)
Variable _allClassData : list ClassData.
Variable _allCharacterColors : gmap string CharacterColor.
Variable _statNames : list string.

Definition radarChartClick (inputs : RadarInputs) (page : RadarPage)
    : RadarPage * option error :=
  let charts := destroyIfSet (chart page) (radarCharts page) in
  let element := hideError (radarError page) in
  let selectedClasses := getSelectedClasses (radarChecked inputs) in
  let selectedLevel := radarSelectedLevel (tbLevel inputs) in
  let v := radarChartValidation selectedClasses in
  if isValid v then
    match assembleRadarChartObject getStatsAtLevel selectedClasses
            _allClassData _allCharacterColors selectedLevel _statNames with
    | Ok radarChartObject =>
        let (chart0, charts) := newChart radarChartObject charts in
        ({| chart := Some chart0; radarError := element;
            radarCharts := charts |}, None)
    | Err e =>
        ({| chart := chart page; radarError := element;
            radarCharts := charts |}, Some e)
    end
  else
    let divs := createErrorDivs (errorMessages v) in
    ({| chart := chart page; radarError := showError divs element;
        radarCharts := charts |}, None).

Definition radarChartClicks (clicks : list RadarInputs) (page : RadarPage)
    : RadarPage :=
  fold_left (fun page inputs => fst (radarChartClick inputs page)) clicks page.

End RadarChartClick.

(** A radar page with no chart yet and the error element hidden. *)
Definition initialRadarPage : RadarPage :=
  {| chart := None;
     radarError := {| classList := ["hidden"]%string; innerHTML := "" |};
     radarCharts := {| created := 0; alive := ∅ |} |}.

(** The charts alive on a canvas are at most the one chart the handler's
    global names. *)
Definition atMostOneChart {A : Type} (global : option nat)
    (charts : Charts A) : Prop :=
  alive charts = ∅
  \/ exists id config, global = Some id /\ alive charts = {[id := config]}.
(** *** Facts on the level range *)

Lemma ceilToFive_Z (x : Z) : ceilToFive x = - ((- x) / 5) * 5.
Proof.
  unfold ceilToFive, Qceiling. f_equal. f_equal.
  unfold Qfloor, Qopp, Qdiv, Qmult, Qinv, inject_Z. simpl.
  rewrite !Z.mul_1_r. reflexivity.
Qed.

Lemma ceilToFive_bounds (x : Z) : x <= ceilToFive x < x + 5.
Proof.
  rewrite ceilToFive_Z.
  pose proof (Z.div_mod (- x) 5 ltac:(lia)).
  pose proof (Z.mod_pos_bound (- x) 5 ltac:(lia)). lia.
Qed.

Lemma ceilToFive_multiple (x : Z) : (ceilToFive x) mod 5 = 0.
Proof. rewrite ceilToFive_Z. apply Z.mod_mul. lia. Qed.

Lemma ceilToFive_fixed (x : Z) : x mod 5 = 0 -> ceilToFive x = x.
Proof.
  intros Hx. pose proof (ceilToFive_bounds x) as Hb.
  pose proof (ceilToFive_multiple x) as Hm.
  pose proof (Z.div_mod x 5 ltac:(lia)).
  pose proof (Z.div_mod (ceilToFive x) 5 ltac:(lia)). lia.
Qed.

Lemma ceilToFive_mono (x y : Z) : x <= y -> ceilToFive x <= ceilToFive y.
Proof.
  intros Hxy. rewrite !ceilToFive_Z.
  pose proof (Z.div_le_mono (- y) (- x) 5 ltac:(lia) ltac:(lia)). lia.
Qed.

(** The bounds hold under weaker conditions than a range inside
    5..200: the lower bound may lie below 5 and the upper above 200. *)
Lemma clamp_bounds (startLevel endLevel : Z) :
  startLevel <= endLevel -> startLevel <= 200 -> 0 < endLevel ->
  5 <= clampStartLevel startLevel
  /\ clampStartLevel startLevel <= clampEndLevel endLevel
  /\ clampEndLevel endLevel <= 200.
Proof.
  intros Hle Hs He. unfold clampStartLevel, clampEndLevel.
  destruct (Z.ltb_spec startLevel 5) as [Hs5 | Hs5];
    destruct (Z.gtb_spec endLevel 200) as [He2 | He2].
  - change (ceilToFive 5) with 5. change (ceilToFive 200) with 200. lia.
  - change (ceilToFive 5) with 5.
    pose proof (ceilToFive_mono 1 endLevel ltac:(lia)) as H1.
    pose proof (ceilToFive_mono endLevel 200 ltac:(lia)) as H2.
    change (ceilToFive 1) with 5 in H1.
    change (ceilToFive 200) with 200 in H2. lia.
  - change (ceilToFive 200) with 200.
    pose proof (ceilToFive_mono 5 startLevel ltac:(lia)) as H1.
    pose proof (ceilToFive_mono startLevel 200 ltac:(lia)) as H2.
    change (ceilToFive 5) with 5 in H1.
    change (ceilToFive 200) with 200 in H2. lia.
  - pose proof (ceilToFive_mono 5 startLevel ltac:(lia)) as H1.
    pose proof (ceilToFive_mono startLevel endLevel ltac:(lia)) as H2.
    pose proof (ceilToFive_mono endLevel 200 ltac:(lia)) as H3.
    change (ceilToFive 5) with 5 in H1.
    change (ceilToFive 200) with 200 in H3. lia.
Qed.

(** C6: for a level range with start <= end that meets the supported
    levels (the start not above 200, the end above 0), the clamped bounds
    satisfy 5 <= start' <= end' <= 200 and both are multiples of 5: a
    start below 5 is raised and an end above 200 is lowered.  A bound
    that is already a multiple of 5 within 5..200 is returned
    unchanged. *)
Theorem clamp_valid_range (startLevel endLevel : Z) :
  startLevel <= endLevel -> startLevel <= 200 -> 0 < endLevel ->
  (5 <= clampStartLevel startLevel
   /\ clampStartLevel startLevel <= clampEndLevel endLevel
   /\ clampEndLevel endLevel <= 200)
  /\ (clampStartLevel startLevel) mod 5 = 0
  /\ (clampEndLevel endLevel) mod 5 = 0
  /\ (5 <= startLevel -> startLevel mod 5 = 0 ->
      clampStartLevel startLevel = startLevel)
  /\ (endLevel <= 200 -> endLevel mod 5 = 0 ->
      clampEndLevel endLevel = endLevel).
Proof.
  intros Hle Hs He. split; [now apply clamp_bounds |].
  split; [apply ceilToFive_multiple |].
  split; [apply ceilToFive_multiple |].
  unfold clampStartLevel, clampEndLevel. split.
  - intros H5 Hmod. destruct (Z.ltb_spec startLevel 5); [lia |].
    now apply ceilToFive_fixed.
  - intros H200 Hmod. destruct (Z.gtb_spec endLevel 200); [lia |].
    now apply ceilToFive_fixed.
Qed.

Lemma clamp_valid_range_witness :
  clampStartLevel (-3) = 5 /\ clampEndLevel 1000 = 200
  /\ (5 <= clampStartLevel (-3)
      /\ clampStartLevel (-3) <= clampEndLevel 1000
      /\ clampEndLevel 1000 <= 200)
  /\ (clampStartLevel (-3)) mod 5 = 0
  /\ (clampEndLevel 1000) mod 5 = 0.
Proof.
  split; [reflexivity |]. split; [reflexivity |].
  destruct (clamp_valid_range (-3) 1000) as (Hb & Hs & He & _);
    [lia | lia | lia |].
  auto.
Defined.

(** Outside the supported levels the clamped bounds may cross: the
    label sequence is then empty. *)
Example clamp_above_range :
  clampStartLevel 201 = 205 /\ clampEndLevel 300 = 200
  /\ createLevelArray (clampStartLevel 201) (clampEndLevel 300) = [].
Proof. repeat split; reflexivity. Qed.

Example createLevelArray_25_40 : createLevelArray 25 40 = [25; 30; 35; 40].
Proof. reflexivity. Qed.

(** With fuel for every iteration the loop ends on its own test, and
    pushes [i], [i + 5], ... up to [upper]. *)
Lemma levelLoop_levels (fuel : nat) (i upper : Z) (levelArray : list Z) :
  upper < i + 5 * Z.of_nat fuel ->
  levelLoop fuel i upper levelArray =
  levelArray ++ map (fun k => i + 5 * Z.of_nat k)
                    (seq 0 (Z.to_nat ((upper - i + 5) / 5))).
Proof.
  revert i levelArray.
  induction fuel as [| fuel IH]; intros i acc Hfuel.
  - simpl. replace (Z.to_nat ((upper - i + 5) / 5)) with 0%nat.
    + simpl. now rewrite app_nil_r.
    + pose proof (Z.div_lt_upper_bound (upper - i + 5) 5 1 ltac:(lia)
                    ltac:(lia)). lia.
  - simpl. destruct (Z.leb_spec i upper) as [Hle | Hgt].
    + rewrite IH by lia.
      replace (upper - i + 5) with ((upper - i) + 1 * 5) by lia.
      rewrite Z.div_add by lia.
      replace (upper - (i + 5) + 5) with (upper - i) by lia.
      pose proof (Z.div_pos (upper - i) 5 ltac:(lia) ltac:(lia)) as Hpos.
      replace (Z.to_nat ((upper - i) / 5 + 1))
        with (S (Z.to_nat ((upper - i) / 5))) by lia.
      rewrite <- app_assoc. simpl. f_equal. f_equal; [lia |].
      rewrite <- seq_shift, map_map. apply map_ext. intros k. lia.
    + replace (Z.to_nat ((upper - i + 5) / 5)) with 0%nat.
      * simpl. now rewrite app_nil_r.
      * pose proof (Z.div_lt_upper_bound (upper - i + 5) 5 1 ltac:(lia)
                      ltac:(lia)). lia.
Qed.

(** [createLevelArray] gives the levels [lower], [lower + 5], ... that
    do not exceed [upper]. *)
Lemma createLevelArray_levels (lower upper : Z) :
  createLevelArray lower upper =
  map (fun k => lower + 5 * Z.of_nat k)
      (seq 0 (Z.to_nat ((upper - lower + 5) / 5))).
Proof.
  unfold createLevelArray. rewrite levelLoop_levels; [reflexivity | lia].
Qed.

(** ** Facts on the loops *)

Section Collect.

Context {A B : Type}.
Variable f : A -> result B.

Lemma collect_app (l1 l2 : list A) :
  collect f (l1 ++ l2) =
  (bs1 ← collect f l1; bs2 ← collect f l2; Ok (bs1 ++ bs2)).
Proof.
  induction l1 as [| a l1 IH]; simpl.
  - destruct (collect f l2); reflexivity.
  - destruct (f a) as [b | e]; simpl; [| reflexivity].
    rewrite IH. destruct (collect f l1) as [bs1 | e]; simpl; [| reflexivity].
    destruct (collect f l2); reflexivity.
Qed.

Lemma collect_Ok (l : list A) (bs : list B) :
  collect f l = Ok bs -> Forall2 (fun a b => f a = Ok b) l bs.
Proof.
  revert bs. induction l as [| a l IH]; simpl; intros bs H.
  - injection H as <-. constructor.
  - destruct (f a) as [b | e] eqn:Ha; simpl in H; [| discriminate].
    destruct (collect f l) as [bs' | e]; simpl in H; [| discriminate].
    injection H as <-. constructor; auto.
Qed.

Lemma collect_total (l : list A) :
  (forall a, In a l -> exists b, f a = Ok b) ->
  exists bs, collect f l = Ok bs.
Proof.
  induction l as [| a l IH]; simpl; intros H; [eauto |].
  destruct (H a) as [b Hb]; [auto |]. rewrite Hb. simpl.
  destruct IH as [bs Hbs]; [auto |]. rewrite Hbs. simpl. eauto.
Qed.

Lemma collect_Err (l : list A) (e : error) :
  collect f l = Err e -> exists a, In a l /\ f a = Err e.
Proof.
  induction l as [| a l IH]; simpl; intros H; [discriminate |].
  destruct (f a) as [b | e'] eqn:Ha; simpl in H.
  - destruct (collect f l) as [bs | e']; simpl in H; [discriminate |].
    injection H as ->. destruct IH as (a' & Hin & Ha'); eauto.
  - injection H as ->. eauto.
Qed.

Lemma collect_fails (l : list A) (a : A) (e : error) :
  In a l -> f a = Err e -> exists e', collect f l = Err e'.
Proof.
  induction l as [| a' l IH]; simpl; intros Hin Ha; [tauto |].
  destruct (f a') as [b | e'] eqn:Ha'; simpl; [| eauto].
  destruct Hin as [-> | Hin]; [congruence |].
  destruct (IH Hin Ha) as [e' ->]. simpl. eauto.
Qed.

End Collect.

Lemma createSingleStatArray_map (statName : string) (c : ClassData) :
  createSingleStatArray statName c =
  map (fun entry => stats entry !! statName) (levelData c).
Proof.
  unfold createSingleStatArray.
  enough (H : forall l acc,
             fold_left (fun a e => a ++ [stats e !! statName]) l acc =
             acc ++ map (fun e => stats e !! statName) l)
    by apply (H _ []).
  induction l as [| e l IH]; intros acc; simpl.
  - now rewrite app_nil_r.
  - rewrite IH, <- app_assoc. reflexivity.
Qed.

Lemma getCharacterClassDataObject_Ok (name : string)
    (allClassData : list ClassData) (c : ClassData) :
  getCharacterClassDataObject name allClassData = Ok c ->
  In c allClassData /\ characterClass c = name.
Proof.
  induction allClassData as [| c' rest IH]; simpl; [discriminate |].
  destruct (String.eqb_spec (characterClass c') name) as [Heq | Hne].
  - intros [= ->]. auto.
  - intros H. destruct (IH H). auto.
Qed.

Lemma getCharacterClassDataObject_known (name : string)
    (allClassData : list ClassData) :
  In name (map characterClass allClassData) ->
  exists c, getCharacterClassDataObject name allClassData = Ok c.
Proof.
  induction allClassData as [| c' rest IH]; simpl; [tauto |].
  destruct (String.eqb_spec (characterClass c') name) as [Heq | Hne]; [eauto |].
  intros [H | H]; [contradiction | auto].
Qed.

Lemma getCharacterClassDataObject_unknown (name : string)
    (allClassData : list ClassData) :
  ~ In name (map characterClass allClassData) ->
  getCharacterClassDataObject name allClassData = Err NotFoundError.
Proof.
  induction allClassData as [| c' rest IH]; simpl; [reflexivity |].
  destruct (String.eqb_spec (characterClass c') name) as [Heq | Hne]; tauto.
Qed.

Lemma getCharacterClassDataObject_Err (name : string)
    (allClassData : list ClassData) (e : error) :
  getCharacterClassDataObject name allClassData = Err e -> e = NotFoundError.
Proof.
  induction allClassData as [| c' rest IH]; simpl; [congruence |].
  destruct (String.eqb (characterClass c') name); [discriminate | auto].
Qed.

Lemma In_pairsFrom (i : nat) (classes stats0 : list string)
    (j : nat) (cls stat : string) :
  In (j, cls, stat) (pairsFrom i classes stats0) ->
  In cls classes /\ In stat stats0.
Proof.
  revert i. induction classes as [| c rest IH]; simpl; intros i; [tauto |].
  rewrite in_app_iff, in_map_iff. intros [(s & [= <- <- <-] & Hs) | H].
  - auto.
  - destruct (IH _ H). auto.
Qed.

Lemma pairsFrom_In (i : nat) (classes stats0 : list string)
    (cls stat : string) :
  In cls classes -> In stat stats0 ->
  exists j, In (j, cls, stat) (pairsFrom i classes stats0).
Proof.
  revert i. induction classes as [| c rest IH]; simpl; intros i; [tauto |].
  intros [-> | Hc] Hs.
  - exists i. rewrite in_app_iff, in_map_iff. eauto.
  - destruct (IH (S i) Hc Hs) as [j Hj]. exists j.
    rewrite in_app_iff. auto.
Qed.

Lemma pairsFrom_labels (i : nat) (classes stats0 : list string) :
  map (fun '(_, cls, stat) => dataLabel cls stat) (pairsFrom i classes stats0) =
  flat_map (fun cls => map (fun stat => dataLabel cls stat) stats0) classes.
Proof.
  revert i. induction classes as [| c rest IH]; simpl; intros i; [reflexivity |].
  rewrite map_app, map_map, IH. reflexivity.
Qed.

Lemma length_pairsFrom (i : nat) (classes stats0 : list string) :
  length (pairsFrom i classes stats0) = (length classes * length stats0)%nat.
Proof.
  revert i. induction classes as [| c rest IH]; simpl; intros i; [reflexivity |].
  rewrite length_app, length_map, IH. reflexivity.
Qed.

Section LineFacts.

Variable shiftColor : RGB -> number -> RGB.
Variables (selectedClasses selectedStats : list string).
Variable allClassData : list ClassData.
Variable allStatColors : gmap string RGB.
Variables (startLevel endLevel : Z).

Let body : nat * string * string -> result DataSet :=
  fun '(i, cls, stat) =>
    lineDataSet shiftColor selectedClasses allClassData allStatColors
                startLevel endLevel i cls stat.

Let sLoop := statLoop shiftColor selectedClasses allClassData allStatColors
                      startLevel endLevel.
Let cLoop := classLoop shiftColor selectedClasses selectedStats allClassData
                       allStatColors startLevel endLevel.

Lemma statLoop_collect (i : nat) (cls : string) (remaining : list string)
    (dataSets : list DataSet) :
  sLoop i cls remaining dataSets =
  (ds ← collect body (map (fun stat => (i, cls, stat)) remaining);
   Ok (dataSets ++ ds)).
Proof.
  revert dataSets. induction remaining as [| stat rest IH]; simpl; intros acc.
  - now rewrite app_nil_r.
  - destruct (lineDataSet _ _ _ _ _ _ i cls stat) as [d | e]; simpl;
      [| reflexivity].
    unfold sLoop in IH. rewrite IH.
    destruct (collect body _) as [ds | e]; simpl; [| reflexivity].
    now rewrite <- app_assoc.
Qed.

Lemma classLoop_collect (i : nat) (remaining : list string)
    (dataSets : list DataSet) :
  cLoop i remaining dataSets =
  (ds ← collect body (pairsFrom i remaining selectedStats);
   Ok (dataSets ++ ds)).
Proof.
  revert i dataSets.
  induction remaining as [| cls rest IH]; simpl; intros i acc.
  - now rewrite app_nil_r.
  - pose proof (statLoop_collect i cls selectedStats acc) as Hs.
    unfold sLoop in Hs. rewrite Hs, collect_app.
    destruct (collect body (map _ selectedStats)) as [ds1 | e]; simpl;
      [| reflexivity].
    unfold cLoop in IH. rewrite IH.
    destruct (collect body (pairsFrom _ _ _)) as [ds2 | e]; simpl;
      [| reflexivity].
    now rewrite app_assoc.
Qed.

End LineFacts.

(** The line assembler is the loop body run over the triples, wrapped
    into the chart object. *)
Lemma assembleLineGraphObject_collect
    (shiftColor : RGB -> number -> RGB)
    (selectedClasses selectedStats : list string) (title : string)
    (allClassData : list ClassData) (allStatColors : gmap string RGB)
    (startLevel endLevel : Z) :
  assembleLineGraphObject shiftColor selectedClasses selectedStats title
    allClassData allStatColors startLevel endLevel =
  (ds ← collect
          (lineBody shiftColor selectedClasses allClassData allStatColors
                    startLevel endLevel)
          (pairsFrom 0 selectedClasses selectedStats);
   Ok (createLineGraphObject (lineLabelsOf startLevel endLevel) ds title)).
Proof.
  unfold assembleLineGraphObject. rewrite classLoop_collect.
  unfold lineBody, lineLabelsOf.
  destruct (collect _ _) as [ds | e]; reflexivity.
Qed.

Lemma lineDataSet_Ok
    (shiftColor : RGB -> number -> RGB) (selectedClasses : list string)
    (allClassData : list ClassData) (allStatColors : gmap string RGB)
    (startLevel endLevel : Z) (i : nat) (cls stat : string) (d : DataSet) :
  lineDataSet shiftColor selectedClasses allClassData allStatColors
    startLevel endLevel i cls stat = Ok d ->
  exists c,
    getCharacterClassDataObject cls allClassData = Ok c
    /\ label d = dataLabel cls stat
    /\ data d = map (fun entry => stats entry !! stat)
                    (List.filter (levelInRange startLevel endLevel)
                                 (levelData c)).
Proof.
  unfold lineDataSet.
  destruct (getCharacterClassDataObject cls allClassData) as [c | e];
    simpl; [| discriminate].
  destruct (getStatColor _ _ _ _) as [rgb | e]; simpl; [| discriminate].
  intros [= <-]. exists c. simpl.
  rewrite createSingleStatArray_map. auto.
Qed.

Lemma lineDataSet_total
    (shiftColor : RGB -> number -> RGB) (selectedClasses : list string)
    (allClassData : list ClassData) (allStatColors : gmap string RGB)
    (startLevel endLevel : Z) (i : nat) (cls stat : string) :
  In cls (map characterClass allClassData) ->
  In stat statEnum -> is_Some (allStatColors !! stat) ->
  exists d,
    lineDataSet shiftColor selectedClasses allClassData allStatColors
      startLevel endLevel i cls stat = Ok d.
Proof.
  intros Hc Hs [rgb Hrgb]. unfold lineDataSet, getStatColor.
  destruct (getCharacterClassDataObject_known _ _ Hc) as [c ->]. simpl.
  assert (isStatName stat = true) as ->.
  { unfold isStatName. apply existsb_exists. exists stat.
    split; [assumption | apply String.eqb_refl]. }
  rewrite Hrgb. simpl. eauto.
Qed.

Lemma lineDataSet_Err
    (shiftColor : RGB -> number -> RGB) (selectedClasses : list string)
    (allClassData : list ClassData) (allStatColors : gmap string RGB)
    (startLevel endLevel : Z) (i : nat) (cls stat : string) (e : error) :
  lineDataSet shiftColor selectedClasses allClassData allStatColors
    startLevel endLevel i cls stat = Err e ->
  (e = NotFoundError /\ ~ In cls (map characterClass allClassData))
  \/ (e = UnknownStatError
      /\ ~ (In stat statEnum /\ is_Some (allStatColors !! stat))).
Proof.
  unfold lineDataSet.
  destruct (getCharacterClassDataObject cls allClassData) as [c | e'] eqn:Hc;
    simpl.
  - unfold getStatColor. destruct (isStatName stat) eqn:Hs.
    + destruct (allStatColors !! stat) eqn:Hl; simpl; [discriminate |].
      intros [= <-]. right. split; [reflexivity |].
      intros [_ [x Hx]]. discriminate.
    + simpl. intros [= <-]. right. split; [reflexivity |].
      intros [Hin _]. unfold isStatName in Hs.
      assert (existsb (String.eqb stat) statEnum = true); [| congruence].
      apply existsb_exists. exists stat. split; [assumption |].
      apply String.eqb_refl.
  - intros [= <-]. left.
    split; [eapply getCharacterClassDataObject_Err; eassumption |].
    intros Hin. apply getCharacterClassDataObject_known in Hin.
    destruct Hin as [c Hc']. congruence.
Qed.

(** ** The line graph *)

(** C7: when every selected class has a table and every selected stat a
    colour, the line assembler returns one dataset per pair of a selected
    class and a selected stat, [|selectedClasses| * |selectedStats|] in
    all, in the order of the Cartesian product with the classes outside
    and the stats inside, each labelled [<class>(<stat>)]. *)
Theorem line_datasets_cartesian
    (shiftColor : RGB -> number -> RGB)
    (selectedClasses selectedStats : list string) (title : string)
    (allClassData : list ClassData) (allStatColors : gmap string RGB)
    (startLevel endLevel : Z) :
  (forall cls, In cls selectedClasses ->
               In cls (map characterClass allClassData)) ->
  (forall stat, In stat selectedStats ->
                In stat statEnum /\ is_Some (allStatColors !! stat)) ->
  exists obj,
    assembleLineGraphObject shiftColor selectedClasses selectedStats title
      allClassData allStatColors startLevel endLevel = Ok obj
    /\ length (lineDatasets (lineData obj)) =
       (length selectedClasses * length selectedStats)%nat
    /\ map label (lineDatasets (lineData obj)) =
       flat_map (fun cls =>
                   map (fun stat => cls +:+ "(" +:+ stat +:+ ")") selectedStats)
                selectedClasses.
Proof.
  intros Hclasses Hstats. rewrite assembleLineGraphObject_collect.
  destruct (collect_total
              (lineBody shiftColor selectedClasses allClassData allStatColors
                        startLevel endLevel)
              (pairsFrom 0 selectedClasses selectedStats)) as [ds Hds].
  { intros [[i cls] stat] Hin. apply In_pairsFrom in Hin as [Hc Hs].
    destruct (Hstats _ Hs). apply lineDataSet_total; auto. }
  rewrite Hds. simpl. eexists. split; [reflexivity |]. simpl.
  apply collect_Ok in Hds.
  assert (Hlab : map label ds =
                 map (fun '(_, cls, stat) => dataLabel cls stat)
                     (pairsFrom 0 selectedClasses selectedStats)).
  { induction Hds as [| [[i cls] stat] d l ds' Hd _ IH]; simpl;
      [reflexivity |].
    apply lineDataSet_Ok in Hd as (c & _ & Hl & _). now rewrite Hl, IH. }
  split.
  - rewrite <- (length_map label), Hlab, length_map. apply length_pairsFrom.
  - rewrite Hlab. apply pairsFrom_labels.
Qed.

Lemma line_datasets_cartesian_witness :
  exists obj,
    Sample.lineGraph ["HUcast"; "RAmar"]%string ["ATP"; "HP"]%string
      Sample.allClassData 5 20 = Ok obj
    /\ length (lineDatasets (lineData obj)) = 4%nat
    /\ map label (lineDatasets (lineData obj)) =
       ["HUcast(ATP)"; "HUcast(HP)"; "RAmar(ATP)"; "RAmar(HP)"]%string.
Proof.
  apply (line_datasets_cartesian Sample.shiftColor
           ["HUcast"; "RAmar"]%string ["ATP"; "HP"]%string
           "Character stat growth" Sample.allClassData Sample.allStatColors
           5 20).
  - simpl. intros cls [<- | [<- | []]]; auto.
  - simpl. intros stat [<- | [<- | []]]; (split; [auto 10 | vm_compute; eauto]).
Defined.

Lemma classLoop_no_stats
    (shiftColor : RGB -> number -> RGB) (selectedClasses : list string)
    (allClassData : list ClassData) (allStatColors : gmap string RGB)
    (startLevel endLevel : Z) (i : nat) (remaining : list string)
    (dataSets : list DataSet) :
  classLoop shiftColor selectedClasses [] allClassData allStatColors
            startLevel endLevel i remaining dataSets = Ok dataSets.
Proof.
  revert i. induction remaining as [| cls rest IH]; simpl; intros i; auto.
Qed.

(** C9: with no selected class, or with no selected stat, the line
    assembler raises no error and returns a chart object of type 'line'
    with the levels of the clamped range as labels, the title it was
    given, and zero datasets. *)
Theorem line_empty_selection
    (shiftColor : RGB -> number -> RGB)
    (selectedClasses selectedStats : list string) (title : string)
    (allClassData : list ClassData) (allStatColors : gmap string RGB)
    (startLevel endLevel : Z) :
  selectedClasses = [] \/ selectedStats = [] ->
  exists obj,
    assembleLineGraphObject shiftColor selectedClasses selectedStats title
      allClassData allStatColors startLevel endLevel = Ok obj
    /\ lineType obj = "line"%string
    /\ lineLabels (lineData obj) =
       map (fun l => JNumber (Num.of_Z l))
           (createLevelArray (clampStartLevel startLevel)
                             (clampEndLevel endLevel))
    /\ lineDatasets (lineData obj) = []
    /\ lineTitle (lineOptions (lineData obj))
       = {| display := true; text := title |}.
Proof.
  intros Hempty.
  assert (Hloop : classLoop shiftColor selectedClasses selectedStats
                    allClassData allStatColors (clampStartLevel startLevel)
                    (clampEndLevel endLevel) 0 selectedClasses [] = Ok []).
  { destruct Hempty as [-> | ->]; [reflexivity | apply classLoop_no_stats]. }
  unfold assembleLineGraphObject. rewrite Hloop. simpl.
  eexists. split; [reflexivity |]. simpl. repeat split.
Qed.

Lemma line_empty_selection_witness :
  exists obj,
    Sample.lineGraph ["HUcast"; "HUmar"]%string [] Sample.allClassData 3 12
    = Ok obj
    /\ lineType obj = "line"%string
    /\ lineLabels (lineData obj) =
       map (fun l => JNumber (Num.of_Z l))
           (createLevelArray (clampStartLevel 3) (clampEndLevel 12))
    /\ lineDatasets (lineData obj) = []
    /\ lineTitle (lineOptions (lineData obj))
       = {| display := true; text := "Character stat growth"%string |}.
Proof.
  apply (line_empty_selection Sample.shiftColor
           ["HUcast"; "HUmar"]%string [] "Character stat growth"
           Sample.allClassData Sample.allStatColors 3 12).
  right. reflexivity.
Defined.

(** C2, as the scripts have it: the line assembler never raises
    [RangeMismatchError] and never compares a table's levels with the
    labels.  The labels are the levels of the clamped range, and the data
    of each dataset are the stat values of the rows of the class's table
    that lie in that range, one per row in the table's order, whatever
    the labels are. *)
Theorem line_data_follows_table
    (shiftColor : RGB -> number -> RGB)
    (selectedClasses selectedStats : list string) (title : string)
    (allClassData : list ClassData) (allStatColors : gmap string RGB)
    (startLevel endLevel : Z) :
  match assembleLineGraphObject shiftColor selectedClasses selectedStats
          title allClassData allStatColors startLevel endLevel with
  | Err e => e <> RangeMismatchError
  | Ok obj =>
      lineLabels (lineData obj) = lineLabelsOf startLevel endLevel
      /\ Forall2
           (fun '(_, cls, stat) dataSet =>
              exists c,
                getCharacterClassDataObject cls allClassData = Ok c
                /\ data dataSet =
                   map (fun entry => stats entry !! stat)
                       (List.filter
                          (levelInRange (clampStartLevel startLevel)
                                        (clampEndLevel endLevel))
                          (levelData c)))
           (pairsFrom 0 selectedClasses selectedStats)
           (lineDatasets (lineData obj))
  end.
Proof.
  rewrite assembleLineGraphObject_collect.
  destruct (collect _ _) as [ds | e] eqn:Hc; simpl.
  - split; [reflexivity |]. apply collect_Ok in Hc.
    induction Hc as [| [[i cls] stat] d l ds' Hd _ IH]; constructor; auto.
    apply lineDataSet_Ok in Hd as (c & Hc & _ & Hdata). eauto.
  - apply collect_Err in Hc as ([[i cls] stat] & _ & He).
    apply lineDataSet_Err in He as [[-> _] | [-> _]]; discriminate.
Qed.

(** C2 fails as stated: level 10 is a label and the filtered table of
    the selected class has no row for it, yet a chart object is returned,
    with three labels over two data points. *)
Lemma line_range_gap_unreported :
  In 10 (createLevelArray (clampStartLevel 5) (clampEndLevel 15))
  /\ getCharacterClassDataObject "HUcast" Sample.gappy
     = Ok {| characterClass := "HUcast";
             levelData := [Sample.row 5 40 30 0; Sample.row 15 80 60 0] |}
  /\ ~ In 10 (map level
                (levelData
                   (getCharacterClassDataInRange
                      (clampStartLevel 5) (clampEndLevel 15)
                      {| characterClass := "HUcast";
                         levelData := [Sample.row 5 40 30 0;
                                       Sample.row 15 80 60 0] |})))
  /\ exists obj,
       Sample.lineGraph ["HUcast"]%string ["ATP"]%string Sample.gappy 5 15
       = Ok obj
       /\ lineLabels (lineData obj) =
          [JNumber (Fin 5); JNumber (Fin 10); JNumber (Fin 15)]
       /\ map data (lineDatasets (lineData obj)) =
          [[Some (Fin 40); Some (Fin 80)]].
Proof.
  split; [vm_compute; auto |]. split; [reflexivity |].
  split; [vm_compute; intros [H | [H | []]]; discriminate |].
  eexists. split; [vm_compute; reflexivity |]. split; reflexivity.
Qed.

(** ** Facts on numbers *)

Lemma max_absorb (x y : number) : Num.max x (Num.max x y) = Num.max x y.
Proof.
  destruct x as [| | a |], y as [| | b |]; simpl; try reflexivity.
  - destruct (Qle_bool a a) eqn:H; [reflexivity |].
    assert (Qle_bool a a = true) by (apply Qle_bool_iff, Qle_refl).
    congruence.
  - destruct (Qle_bool a b) eqn:H; simpl.
    + now rewrite H.
    + destruct (Qle_bool a a); reflexivity.
Qed.

Lemma max_leb_Fin (x y : number) (m : Q) :
  Num.leb (Num.max x y) (Fin m) = true ->
  Num.leb x (Fin m) = true /\ Num.leb y (Fin m) = true.
Proof.
  destruct x as [| | a |], y as [| | b |]; simpl; try discriminate; auto.
  destruct (Qle_bool a b) eqn:H; simpl; intros Hm; split; auto.
  - apply Qle_bool_iff in H, Hm. apply Qle_bool_iff. eapply Qle_trans; eauto.
  - apply Qle_bool_iff in Hm. apply Qle_bool_iff.
    apply Qlt_le_weak. eapply Qlt_le_trans; [| exact Hm].
    apply Qnot_le_lt. intros Hab. apply Qle_bool_iff in Hab. congruence.
Qed.

Lemma leb_Fin_refl (m : Q) : Num.leb (Fin m) (Fin m) = true.
Proof. simpl. apply Qle_bool_iff, Qle_refl. Qed.

(** A finite result of the fold of [Math.max] bounds the initial value and
    every element. *)
Lemma fold_max_upper {A : Type} (f : A -> number) (l : list A)
    (init : number) (m : Q) :
  fold_left (fun acc a => Num.max (f a) acc) l init = Fin m ->
  Num.leb init (Fin m) = true
  /\ forall a, In a l -> Num.leb (f a) (Fin m) = true.
Proof.
  revert init. induction l as [| a l IH]; simpl; intros init H.
  - rewrite H. split; [apply leb_Fin_refl | tauto].
  - destruct (IH _ H) as [Hmax Hl].
    apply max_leb_Fin in Hmax as [Ha Hinit].
    split; [assumption |]. intros a' [<- | Hin]; auto.
Qed.


(** Dividing by a zero maximum: the value is at most 0, and the result
    is NaN for 0 and -Infinity below. *)
Lemma percentage_zero_maximum (value : number) (m : Q) :
  (m == 0)%Q -> Num.leb value (Fin m) = true ->
  Num.mul (Num.div value (Fin m)) (Num.of_Z 100) =
  if Num.eqb value Num.zero then NaN else NegInf.
Proof.
  intros Hm Hle. destruct value as [| | v |]; try discriminate.
  - unfold Num.div.
    assert (Qle_bool 0 m = true) as ->.
    { apply Qle_bool_iff. rewrite Hm. apply Qle_refl. }
    reflexivity.
  - unfold Num.div, Num.eqb, Num.zero. unfold Num.leb in Hle.
    assert (Qeq_bool m 0 = true) as -> by (now apply Qeq_bool_iff).
    apply Qle_bool_iff in Hle. rewrite Hm in Hle.
    destruct (v ?= 0)%Q eqn:Hc.
    + apply Qeq_alt in Hc.
      assert (Qeq_bool v 0 = true) as -> by (now apply Qeq_bool_iff).
      reflexivity.
    + apply Qlt_alt in Hc.
      assert (Qeq_bool v 0 = false) as ->; [| reflexivity].
      destruct (Qeq_bool v 0) eqn:Hv; [| reflexivity].
      apply Qeq_bool_iff in Hv. rewrite Hv in Hc.
      exfalso. exact (Qlt_irrefl _ Hc).
    + apply Qgt_alt in Hc. exfalso.
      exact (Qlt_irrefl _ (Qlt_le_trans _ _ _ Hc Hle)).
Qed.

(** ** Facts on the radar helpers *)

Lemma fold_push_map {A B : Type} (f : A -> B) (l : list A) (acc : list B) :
  fold_left (fun out a => out ++ [f a]) l acc = acc ++ map f l.
Proof.
  revert acc. induction l as [| a l IH]; intros acc; simpl.
  - now rewrite app_nil_r.
  - rewrite IH, <- app_assoc. reflexivity.
Qed.

Lemma createStatAtLevelArray_map
    (getStatsAtLevel : ClassData -> Z -> gmap string number)
    (allCharacters : list ClassData) (level0 : Z) :
  createStatAtLevelArray getStatsAtLevel allCharacters level0 =
  map (fun c => getStatsAtLevel c level0) allCharacters.
Proof. unfold createStatAtLevelArray. apply (fold_push_map _ _ []). Qed.

Lemma createStatArray_map (percentageStatsObject : gmap string number)
    (statNames : list string) :
  createStatArray percentageStatsObject statNames =
  map (fun statName => percentageStatsObject !! statName) statNames.
Proof. unfold createStatArray. apply (fold_push_map _ _ []). Qed.

(** Both radar helpers assign, for each stat name in turn, a value
    computed from the name and the current value under that name. *)
Lemma fold_update_notin (h : string -> option number -> number)
    (names : list string) (m : gmap string number) (s : string) :
  ~ In s names ->
  fold_left (fun m k => <[k := h k (m !! k)]> m) names m !! s = m !! s.
Proof.
  revert m. induction names as [| k rest IH]; simpl; intros m Hs;
    [reflexivity |].
  rewrite IH by tauto. apply lookup_insert_ne. intros ->. tauto.
Qed.

Lemma fold_update_in (h : string -> option number -> number)
    (names : list string) (m : gmap string number) (s : string) :
  (forall k o, h k (Some (h k o)) = h k o) ->
  In s names ->
  fold_left (fun m k => <[k := h k (m !! k)]> m) names m !! s =
  Some (h s (m !! s)).
Proof.
  intros Hidem. revert m.
  induction names as [| k rest IH]; simpl; intros m Hs; [tauto |].
  destruct (in_dec string_dec s rest) as [Hrest | Hrest].
  - rewrite IH by assumption.
    destruct (string_dec k s) as [-> | Hne].
    + now rewrite lookup_insert_eq, Hidem.
    + now rewrite lookup_insert_ne.
  - destruct Hs as [-> | Hs]; [| contradiction].
    rewrite fold_update_notin by assumption. apply lookup_insert_eq.
Qed.

Lemma createPercentageStats_lookup
    (characterStatsAtLevel maximumStatsObject : gmap string number)
    (statNames : list string) (statName : string) :
  In statName statNames ->
  createPercentageStats characterStatsAtLevel maximumStatsObject statNames
    !! statName =
  Some (percentage (characterStatsAtLevel !! statName)
                   (maximumStatsObject !! statName)).
Proof.
  intros Hin. unfold createPercentageStats.
  apply (fold_update_in
           (fun k _ => percentage (characterStatsAtLevel !! k)
                                  (maximumStatsObject !! k)));
    auto.
Qed.

Lemma maximumStep_lookup (statNames : list string)
    (maximumStats characterStats : gmap string number) (statName : string) :
  In statName statNames ->
  maximumStep statNames maximumStats characterStats !! statName =
  Some (Num.max (Num.toNumber (characterStats !! statName))
                (Num.toNumber (maximumStats !! statName))).
Proof.
  intros Hin. unfold maximumStep.
  apply (fold_update_in
           (fun k o => Num.max (Num.toNumber (characterStats !! k))
                               (Num.toNumber o)));
    [| assumption].
  intros k o. simpl. apply max_absorb.
Qed.

(** The maximum the radar chart divides by is [Math.max] folded over the
    stats of all the classes, from the initial value of the name. *)
Lemma createMaximumStatsObject_lookup
    (allCharacterStatsAtLevel : list (gmap string number))
    (statNames : list string) (statName : string) :
  In statName statNames ->
  Num.toNumber
    (createMaximumStatsObject allCharacterStatsAtLevel statNames !! statName)
  = maximumOf statName allCharacterStatsAtLevel.
Proof.
  intros Hin. unfold createMaximumStatsObject, maximumOf.
  generalize zeroStats.
  induction allCharacterStatsAtLevel as [| st rest IH]; simpl; intros m;
    [reflexivity |].
  rewrite IH, maximumStep_lookup by assumption. reflexivity.
Qed.

Section RadarFacts.

Variable getStatsAtLevel : ClassData -> Z -> gmap string number.
Variable allClassData : list ClassData.
Variable characterColors : gmap string CharacterColor.
Variable selectedLevel : Z.
Variable statNames : list string.

Let body := radarDataSet getStatsAtLevel allClassData characterColors
                         selectedLevel statNames.

Lemma radarLoop_collect (remaining : list string) (dataSets : list DataSet) :
  radarLoop getStatsAtLevel allClassData characterColors selectedLevel
            statNames remaining dataSets =
  (ds ← collect body remaining; Ok (dataSets ++ ds)).
Proof.
  revert dataSets. induction remaining as [| name rest IH]; simpl; intros acc.
  - now rewrite app_nil_r.
  - fold body. destruct (body name) as [d | e]; simpl; [| reflexivity].
    rewrite IH. destruct (collect body rest) as [ds | e]; simpl;
      [| reflexivity].
    now rewrite <- app_assoc.
Qed.

Lemma assembleRadarChartObject_collect (selected : list string) :
  assembleRadarChartObject getStatsAtLevel selected allClassData
    characterColors selectedLevel statNames =
  (ds ← collect body selected;
   Ok (createRadarChartObject (map JString statNames) ds "Class stats")).
Proof.
  unfold assembleRadarChartObject, createRadarChartDataSets.
  rewrite radarLoop_collect.
  destruct (collect body selected); reflexivity.
Qed.

Lemma radarDataSet_Ok (name : string) (d : DataSet) :
  body name = Ok d ->
  exists c,
    getCharacterClassDataObject name allClassData = Ok c
    /\ label d = name
    /\ data d =
       map (fun stat =>
              Some (percentage
                      (getStatsAtLevel c selectedLevel !! stat)
                      (maximumStatsAt getStatsAtLevel allClassData
                         selectedLevel statNames !! stat)))
           statNames.
Proof.
  unfold body, radarDataSet.
  destruct (getCharacterClassDataObject name allClassData) as [c | e];
    simpl; [| discriminate].
  destruct (getCharacterColor characterColors name) as [cc | e]; simpl;
    [| discriminate].
  intros [= <-]. exists c. simpl. split; [reflexivity |].
  split; [reflexivity |].
  rewrite createStatArray_map. apply map_ext_in. intros stat Hin.
  now rewrite createPercentageStats_lookup.
Qed.

Lemma radarDataSet_Err (name : string) (e : error) :
  body name = Err e -> e = NotFoundError.
Proof.
  unfold body, radarDataSet.
  destruct (getCharacterClassDataObject name allClassData) as [c | e'] eqn:Hc;
    simpl.
  - unfold getCharacterColor.
    destruct (characterColors !! name); simpl; [discriminate | congruence].
  - intros [= <-]. eapply getCharacterClassDataObject_Err; eassumption.
Qed.

Lemma radarDataSet_unknown (name : string) :
  ~ In name (map characterClass allClassData) ->
  body name = Err NotFoundError.
Proof.
  intros H. unfold body, radarDataSet.
  now rewrite getCharacterClassDataObject_unknown.
Qed.

(** One cell of the radar chart: the percentage of stat [j] in the
    dataset of the selected class [i]. *)
Lemma radar_cell (selected : list string) (obj : RadarChartObject)
    (i j : nat) (name stat : string) :
  assembleRadarChartObject getStatsAtLevel selected allClassData
    characterColors selectedLevel statNames = Ok obj ->
  selected !! i = Some name -> statNames !! j = Some stat ->
  exists c dataSet,
    getCharacterClassDataObject name allClassData = Ok c
    /\ radarDatasets (radarData obj) !! i = Some dataSet
    /\ label dataSet = name
    /\ data dataSet =
       map (fun stat =>
              Some (percentage
                      (getStatsAtLevel c selectedLevel !! stat)
                      (maximumStatsAt getStatsAtLevel allClassData
                         selectedLevel statNames !! stat)))
           statNames
    /\ data dataSet !! j =
       Some (Some (percentage
                     (getStatsAtLevel c selectedLevel !! stat)
                     (maximumStatsAt getStatsAtLevel allClassData
                        selectedLevel statNames !! stat))).
Proof.
  rewrite assembleRadarChartObject_collect.
  destruct (collect body selected) as [ds | e] eqn:Hc; simpl; [| discriminate].
  intros [= <-] Hi Hj. simpl. apply collect_Ok in Hc.
  destruct (Forall2_lookup_l _ _ _ _ _ Hc Hi) as (d & Hd & Hbody).
  apply radarDataSet_Ok in Hbody as (c & Hget & Hlabel & Hdata).
  exists c, d. repeat (split; [assumption |]).
  rewrite Hdata, list_lookup_fmap, Hj. reflexivity.
Qed.

(** A finite maximum bounds the value of every class of the dataset. *)
Lemma maximum_bounds_class (c : ClassData) (stat : string) (m : Q) :
  In c allClassData -> In stat statNames ->
  Num.toNumber (maximumStatsAt getStatsAtLevel allClassData selectedLevel
                  statNames !! stat) = Fin m ->
  Num.leb (Num.toNumber (getStatsAtLevel c selectedLevel !! stat)) (Fin m)
  = true.
Proof.
  intros Hc Hs. unfold maximumStatsAt.
  rewrite createMaximumStatsObject_lookup by assumption.
  rewrite createStatAtLevelArray_map. unfold maximumOf. intros Hmax.
  apply (fold_max_upper (fun st : gmap string number =>
                           Num.toNumber (st !! stat))) in Hmax.
  destruct Hmax as [_ Hall]. apply Hall. apply in_map_iff. eauto.
Qed.

End RadarFacts.

(** ** The radar chart *)

(** C1, as the scripts have it: the division has no guard.  When the
    cross-class maximum of a stat at the selected level is 0, the
    percentage of a selected class for that stat is not 0: it is NaN when
    the class's own value is 0 and -Infinity when it is negative. *)
Theorem radar_zero_maximum
    (getStatsAtLevel : ClassData -> Z -> gmap string number)
    (selected : list string) (allClassData : list ClassData)
    (characterColors : gmap string CharacterColor) (selectedLevel : Z)
    (statNames : list string) (obj : RadarChartObject)
    (i j : nat) (name stat : string) :
  assembleRadarChartObject getStatsAtLevel selected allClassData
    characterColors selectedLevel statNames = Ok obj ->
  selected !! i = Some name -> statNames !! j = Some stat ->
  Num.eqb (Num.toNumber (maximumStatsAt getStatsAtLevel allClassData
                           selectedLevel statNames !! stat))
          Num.zero = true ->
  exists c dataSet,
    getCharacterClassDataObject name allClassData = Ok c
    /\ radarDatasets (radarData obj) !! i = Some dataSet
    /\ data dataSet !! j =
       Some (Some (if Num.eqb (Num.toNumber
                                 (getStatsAtLevel c selectedLevel !! stat))
                              Num.zero
                   then NaN else NegInf)).
Proof.
  intros Hobj Hi Hj Hzero.
  destruct (radar_cell _ _ _ _ _ _ _ _ _ _ _ Hobj Hi Hj)
    as (c & d & Hc & Hd & _ & _ & Hcell).
  exists c, d. split; [assumption |]. split; [assumption |].
  rewrite Hcell. do 2 f_equal. unfold percentage.
  destruct (Num.toNumber (maximumStatsAt _ _ _ _ !! stat)) as [| | m |] eqn:Hm;
    try discriminate.
  apply percentage_zero_maximum.
  - now apply Qeq_bool_iff.
  - apply getCharacterClassDataObject_Ok in Hc as [Hin _].
    eapply maximum_bounds_class; eauto.
    apply list_elem_of_In, list_elem_of_lookup. eauto.
Qed.

Lemma radar_zero_maximum_witness :
  exists obj,
    Sample.radarChart ["HUcast"]%string Sample.androids 10
      ["ATP"; "HP"; "TP"]%string = Ok obj
    /\ exists c dataSet,
         getCharacterClassDataObject "HUcast" Sample.androids = Ok c
         /\ radarDatasets (radarData obj) !! 0%nat = Some dataSet
         /\ data dataSet !! 2%nat =
            Some (Some (if Num.eqb (Num.toNumber
                                      (Sample.getStatsAtLevel c 10 !! "TP"%string))
                                   Num.zero
                        then NaN else NegInf)).
Proof.
  eexists. split; [vm_compute; reflexivity |].
  eapply (radar_zero_maximum Sample.getStatsAtLevel ["HUcast"]%string
            Sample.androids Sample.allCharacterColors 10
            ["ATP"; "HP"; "TP"]%string _ 0 2 "HUcast"%string "TP"%string);
    vm_compute; reflexivity.
Defined.

(** C1 fails as stated: no class of the dataset has any TP at level 10,
    so the cross-class maximum of TP is 0, and the percentage of TP in
    the dataset of the selected class is NaN. *)
Lemma radar_zero_maximum_gives_NaN :
  maximumStatsAt Sample.getStatsAtLevel Sample.androids 10
    ["ATP"; "HP"; "TP"]%string !! "TP"%string = Some (Fin 0)
  /\ exists obj,
       Sample.radarChart ["HUcast"]%string Sample.androids 10
         ["ATP"; "HP"; "TP"]%string = Ok obj
       /\ map data (radarDatasets (radarData obj)) =
          [[Some (Fin 100); Some (Fin 100); Some NaN]]
       /\ Num.isNaN NaN = true
       /\ Num.eqb NaN Num.zero = false.
Proof.
  split; [vm_compute; reflexivity |].
  eexists. split; [vm_compute; reflexivity |].
  repeat split; reflexivity.
Qed.




(** C5: two selections that both contain a class give that class the
    same dataset, percentages included.  Each percentage is the class's
    value over the maximum folded over every class of the dataset, in
    which the selection plays no part. *)
Theorem radar_selection_independent
    (getStatsAtLevel : ClassData -> Z -> gmap string number)
    (selected1 selected2 : list string) (allClassData : list ClassData)
    (characterColors : gmap string CharacterColor) (selectedLevel : Z)
    (statNames : list string) (obj1 obj2 : RadarChartObject)
    (i1 i2 : nat) (name : string) :
  assembleRadarChartObject getStatsAtLevel selected1 allClassData
    characterColors selectedLevel statNames = Ok obj1 ->
  assembleRadarChartObject getStatsAtLevel selected2 allClassData
    characterColors selectedLevel statNames = Ok obj2 ->
  selected1 !! i1 = Some name -> selected2 !! i2 = Some name ->
  exists c dataSet,
    getCharacterClassDataObject name allClassData = Ok c
    /\ radarDatasets (radarData obj1) !! i1 = Some dataSet
    /\ radarDatasets (radarData obj2) !! i2 = Some dataSet
    /\ data dataSet =
       map (fun stat =>
              Some (Num.mul
                      (Num.div
                         (Num.toNumber
                            (getStatsAtLevel c selectedLevel !! stat))
                         (maximumOf stat
                            (map (fun c' => getStatsAtLevel c' selectedLevel)
                                 allClassData)))
                      (Num.of_Z 100)))
           statNames.
Proof.
  rewrite !assembleRadarChartObject_collect.
  destruct (collect _ selected1) as [ds1 | e] eqn:H1; simpl; [| discriminate].
  destruct (collect _ selected2) as [ds2 | e] eqn:H2; simpl; [| discriminate].
  intros [= <-] [= <-] Hi1 Hi2. simpl.
  apply collect_Ok in H1, H2.
  destruct (Forall2_lookup_l _ _ _ _ _ H1 Hi1) as (d1 & Hd1 & Hb1).
  destruct (Forall2_lookup_l _ _ _ _ _ H2 Hi2) as (d2 & Hd2 & Hb2).
  assert (d2 = d1) as -> by congruence.
  apply radarDataSet_Ok in Hb1 as (c & Hc & _ & Hdata).
  exists c, d1. repeat (split; [assumption |]).
  rewrite Hdata. apply map_ext_in. intros stat Hin. unfold percentage.
  unfold maximumStatsAt.
  now rewrite createMaximumStatsObject_lookup, createStatAtLevelArray_map.
Qed.

Lemma radar_selection_independent_witness :
  exists obj1 obj2,
    Sample.radarChart ["RAmar"]%string Sample.allClassData 10
      ["ATP"; "TP"]%string = Ok obj1
    /\ Sample.radarChart ["HUcast"; "RAmar"]%string Sample.allClassData 10
         ["ATP"; "TP"]%string = Ok obj2
    /\ exists c dataSet,
         getCharacterClassDataObject "RAmar" Sample.allClassData = Ok c
         /\ radarDatasets (radarData obj1) !! 0%nat = Some dataSet
         /\ radarDatasets (radarData obj2) !! 1%nat = Some dataSet
         /\ data dataSet =
            map (fun stat =>
                   Some (Num.mul
                           (Num.div
                              (Num.toNumber
                                 (Sample.getStatsAtLevel c 10 !! stat))
                              (maximumOf stat
                                 (map (fun c' => Sample.getStatsAtLevel c' 10)
                                      Sample.allClassData)))
                           (Num.of_Z 100)))
                ["ATP"; "TP"]%string.
Proof.
  eexists. eexists. split; [vm_compute; reflexivity |].
  split; [vm_compute; reflexivity |].
  eapply (radar_selection_independent Sample.getStatsAtLevel
            ["RAmar"]%string ["HUcast"; "RAmar"]%string
            Sample.allClassData Sample.allCharacterColors 10
            ["ATP"; "TP"]%string _ _ 0 1 "RAmar"%string);
    vm_compute; reflexivity.
Defined.

(** C10: whatever the input, a radar chart object that is returned
    carries the title 'Class stats'. *)
Theorem radar_title_fixed
    (getStatsAtLevel : ClassData -> Z -> gmap string number)
    (selected : list string) (allClassData : list ClassData)
    (characterColors : gmap string CharacterColor) (selectedLevel : Z)
    (statNames : list string) (obj : RadarChartObject) :
  assembleRadarChartObject getStatsAtLevel selected allClassData
    characterColors selectedLevel statNames = Ok obj ->
  radarTitle (radarOptions obj)
  = {| display := true; text := "Class stats" |}.
Proof.
  unfold assembleRadarChartObject.
  destruct (createRadarChartDataSets _ _ _ _ _ _) as [ds | e]; simpl;
    [| discriminate].
  intros [= <-]. reflexivity.
Qed.

Lemma radar_title_fixed_witness :
  exists obj,
    Sample.radarChart ["HUcast"; "RAmar"]%string Sample.allClassData 15
      ["ATP"; "HP"]%string = Ok obj
    /\ radarTitle (radarOptions obj)
       = {| display := true; text := "Class stats" |}.
Proof.
  eexists. split; [vm_compute; reflexivity |].
  eapply (radar_title_fixed Sample.getStatsAtLevel
            ["HUcast"; "RAmar"]%string Sample.allClassData
            Sample.allCharacterColors 15 ["ATP"; "HP"]%string).
  vm_compute. reflexivity.
Defined.

(** When every selected class has a table and a colour, the radar
    assembler returns a chart object. *)
Lemma radar_total
    (getStatsAtLevel : ClassData -> Z -> gmap string number)
    (selected : list string) (allClassData : list ClassData)
    (characterColors : gmap string CharacterColor) (selectedLevel : Z)
    (statNames : list string) :
  (forall name, In name selected ->
                In name (map characterClass allClassData)
                /\ is_Some (characterColors !! name)) ->
  exists obj,
    assembleRadarChartObject getStatsAtLevel selected allClassData
      characterColors selectedLevel statNames = Ok obj.
Proof.
  intros Hsel. rewrite assembleRadarChartObject_collect.
  destruct (collect_total
              (radarDataSet getStatsAtLevel allClassData characterColors
                            selectedLevel statNames) selected) as [ds Hds].
  - intros name Hin. destruct (Hsel _ Hin) as [Hc [cc Hcc]].
    unfold radarDataSet, getCharacterColor.
    destruct (getCharacterClassDataObject_known _ _ Hc) as [c ->].
    rewrite Hcc. simpl. eauto.
  - rewrite Hds. simpl. eauto.
Qed.

(** ** Unknown classes and the shape of the chart objects *)

(** C8, as the assemblers have it: for a selection that contains a class
    without an entry in the dataset, the radar assembler raises
    [NotFoundError]; the line assembler, when at least one stat is
    selected, returns no chart object either: it raises
    [NotFoundError], or [UnknownStatError] when a selected stat has no
    colour. *)
Theorem unknown_class_not_found
    (shiftColor : RGB -> number -> RGB)
    (getStatsAtLevel : ClassData -> Z -> gmap string number)
    (selectedClasses selectedStats : list string) (title : string)
    (allClassData : list ClassData) (allStatColors : gmap string RGB)
    (characterColors : gmap string CharacterColor)
    (startLevel endLevel selectedLevel : Z) (statNames : list string)
    (name : string) :
  In name selectedClasses ->
  ~ In name (map characterClass allClassData) ->
  assembleRadarChartObject getStatsAtLevel selectedClasses allClassData
    characterColors selectedLevel statNames = Err NotFoundError
  /\ (selectedStats <> [] ->
      exists e,
        assembleLineGraphObject shiftColor selectedClasses selectedStats
          title allClassData allStatColors startLevel endLevel = Err e
        /\ (e = NotFoundError \/ e = UnknownStatError)
        /\ ((forall stat, In stat selectedStats ->
                          In stat statEnum
                          /\ is_Some (allStatColors !! stat)) ->
            e = NotFoundError)).
Proof.
  intros Hin Hunknown. split.
  - rewrite assembleRadarChartObject_collect.
    destruct (collect_fails _ selectedClasses name NotFoundError Hin
                (radarDataSet_unknown getStatsAtLevel allClassData
                   characterColors selectedLevel statNames name Hunknown))
      as [e He].
    rewrite He. simpl. f_equal.
    apply collect_Err in He as (name' & _ & He).
    eapply radarDataSet_Err; eassumption.
  - intros Hstats. rewrite assembleLineGraphObject_collect.
    destruct selectedStats as [| stat0 rest] eqn:Hs; [congruence |].
    rewrite <- Hs in *.
    assert (Hstat0 : In stat0 selectedStats) by (rewrite Hs; simpl; auto).
    destruct (pairsFrom_In 0 selectedClasses selectedStats name stat0 Hin
                Hstat0) as [j Hj].
    assert (Hfail : lineBody shiftColor selectedClasses allClassData
                      allStatColors startLevel endLevel (j, name, stat0)
                    = Err NotFoundError).
    { unfold lineBody, lineDataSet.
      now rewrite getCharacterClassDataObject_unknown. }
    destruct (collect_fails _ _ _ _ Hj Hfail) as [e He].
    rewrite He. simpl. exists e. split; [reflexivity |].
    apply collect_Err in He as ([[i cls] stat] & Hpair & He).
    apply In_pairsFrom in Hpair as [_ Hstat].
    apply lineDataSet_Err in He as [[-> _] | [-> Hbad]].
    + auto.
    + split; [auto |]. intros Hall. exfalso. apply Hbad. exact (Hall _ Hstat).
Qed.

Lemma unknown_class_not_found_witness :
  Sample.radarChart ["HUcast"; "HUmar"]%string Sample.allClassData 10
    ["ATP"; "HP"]%string = Err NotFoundError
  /\ (["ATP"]%string <> [] ->
      exists e,
        Sample.lineGraph ["HUcast"; "HUmar"]%string ["ATP"]%string
          Sample.allClassData 5 15 = Err e
        /\ (e = NotFoundError \/ e = UnknownStatError)
        /\ ((forall stat, In stat ["ATP"]%string ->
                          In stat statEnum
                          /\ is_Some (Sample.allStatColors !! stat)) ->
            e = NotFoundError)).
Proof.
  apply (unknown_class_not_found Sample.shiftColor Sample.getStatsAtLevel
           ["HUcast"; "HUmar"]%string ["ATP"]%string "Character stat growth"
           Sample.allClassData Sample.allStatColors Sample.allCharacterColors
           5 15 10 ["ATP"; "HP"]%string "HUmar"%string).
  - simpl. auto.
  - simpl. intros [H | [H | []]]; discriminate.
Defined.

(** C8 fails as stated: with no stat selected the line assembler looks
    no class up, and returns a chart object with zero datasets for a
    class the dataset does not have. *)
Lemma line_unknown_class_without_stats :
  ~ In "HUmar"%string (map characterClass Sample.allClassData)
  /\ Sample.lineGraph ["HUmar"]%string [] Sample.allClassData 5 10
     = Ok (createLineGraphObject [JNumber (Fin 5); JNumber (Fin 10)] []
             "Character stat growth").
Proof.
  split; [simpl; intros [H | [H | []]]; discriminate |].
  vm_compute. reflexivity.
Qed.

(** C3, as the assemblers have it: a returned line chart object has type
    'line', the levels of the clamped range as labels, which are numbers,
    one dataset per pair of a class and a stat, and the title it was
    given; a returned radar chart object has type 'radar', the stat names
    as labels, which are strings, one dataset per selected class, and the
    title 'Class stats'. *)
Theorem chart_object_shape
    (shiftColor : RGB -> number -> RGB)
    (getStatsAtLevel : ClassData -> Z -> gmap string number)
    (selectedClasses selectedStats : list string) (title : string)
    (allClassData : list ClassData) (allStatColors : gmap string RGB)
    (characterColors : gmap string CharacterColor)
    (startLevel endLevel selectedLevel : Z) (statNames : list string)
    (lineObj : LineGraphObject) (radarObj : RadarChartObject) :
  (assembleLineGraphObject shiftColor selectedClasses selectedStats title
     allClassData allStatColors startLevel endLevel = Ok lineObj ->
   lineType lineObj = "line"%string
   /\ lineLabels (lineData lineObj) =
      map (fun l => JNumber (Num.of_Z l))
          (createLevelArray (clampStartLevel startLevel)
                            (clampEndLevel endLevel))
   /\ forallb isNumber (lineLabels (lineData lineObj)) = true
   /\ map label (lineDatasets (lineData lineObj)) =
      flat_map (fun cls => map (fun stat => dataLabel cls stat) selectedStats)
               selectedClasses
   /\ text (lineTitle (lineOptions (lineData lineObj))) = title)
  /\ (assembleRadarChartObject getStatsAtLevel selectedClasses allClassData
        characterColors selectedLevel statNames = Ok radarObj ->
      radarType radarObj = "radar"%string
      /\ radarLabels (radarData radarObj) = map JString statNames
      /\ forallb isString (radarLabels (radarData radarObj)) = true
      /\ map label (radarDatasets (radarData radarObj)) = selectedClasses
      /\ text (radarTitle (radarOptions radarObj)) = "Class stats"%string).
Proof.
  split.
  - rewrite assembleLineGraphObject_collect.
    destruct (collect _ _) as [ds | e] eqn:Hc; simpl; [| discriminate].
    intros [= <-]. simpl. split; [reflexivity |]. split; [reflexivity |].
    split; [| split; [| reflexivity]].
    + unfold lineLabelsOf. apply forallb_forall. intros v Hv.
      apply in_map_iff in Hv as (l & <- & _). reflexivity.
    + rewrite <- (pairsFrom_labels 0). apply collect_Ok in Hc.
      induction Hc as [| [[i cls] stat] d l ds' Hd _ IH]; simpl;
        [reflexivity |].
      apply lineDataSet_Ok in Hd as (c & _ & Hl & _). now rewrite Hl, IH.
  - rewrite assembleRadarChartObject_collect.
    destruct (collect _ _) as [ds | e] eqn:Hc; simpl; [| discriminate].
    intros [= <-]. simpl. split; [reflexivity |]. split; [reflexivity |].
    split; [| split; [| reflexivity]].
    + apply forallb_forall. intros v Hv.
      apply in_map_iff in Hv as (s & <- & _). reflexivity.
    + apply collect_Ok in Hc.
      induction Hc as [| name d l ds' Hd _ IH]; simpl; [reflexivity |].
      apply radarDataSet_Ok in Hd as (c & _ & Hl & _). now rewrite Hl, IH.
Qed.

Lemma chart_object_shape_witness :
  exists lineObj radarObj,
    Sample.lineGraph ["HUcast"; "RAmar"]%string ["ATP"]%string
      Sample.allClassData 5 10 = Ok lineObj
    /\ Sample.radarChart ["HUcast"; "RAmar"]%string Sample.allClassData 10
         ["ATP"; "HP"; "TP"]%string = Ok radarObj
    /\ lineType lineObj = "line"%string
    /\ lineLabels (lineData lineObj) = [JNumber (Fin 5); JNumber (Fin 10)]
    /\ map label (lineDatasets (lineData lineObj)) =
       ["HUcast(ATP)"; "RAmar(ATP)"]%string
    /\ text (lineTitle (lineOptions (lineData lineObj)))
       = "Character stat growth"%string
    /\ radarType radarObj = "radar"%string
    /\ radarLabels (radarData radarObj) =
       [JString "ATP"; JString "HP"; JString "TP"]
    /\ map label (radarDatasets (radarData radarObj)) =
       ["HUcast"; "RAmar"]%string
    /\ text (radarTitle (radarOptions radarObj)) = "Class stats"%string.
Proof.
  eexists. eexists. split; [vm_compute; reflexivity |].
  split; [vm_compute; reflexivity |].
  match goal with
  | |- context [lineType ?l] =>
      match goal with
      | |- context [radarType ?r] =>
          destruct (chart_object_shape Sample.shiftColor
                      Sample.getStatsAtLevel
                      ["HUcast"; "RAmar"]%string ["ATP"]%string
                      "Character stat growth" Sample.allClassData
                      Sample.allStatColors Sample.allCharacterColors
                      5 10 10 ["ATP"; "HP"; "TP"]%string l r)
            as [Hline Hradar]
      end
  end.
  destruct Hline as (H1 & H2 & _ & H3 & H4); [vm_compute; reflexivity |].
  destruct Hradar as (H5 & H6 & _ & H7 & H8); [vm_compute; reflexivity |].
  repeat split; assumption.
Defined.

(** C3 fails as stated: the labels of a line chart are the levels, which
    are numbers and not strings. *)
Lemma line_labels_are_numbers :
  exists obj,
    Sample.lineGraph ["HUcast"]%string ["ATP"]%string Sample.allClassData 5 10
    = Ok obj
    /\ lineLabels (lineData obj) = [JNumber (Fin 5); JNumber (Fin 10)]
    /\ forallb isString (lineLabels (lineData obj)) = false.
Proof.
  eexists. split; [vm_compute; reflexivity |]. split; reflexivity.
Qed.

(** ** Further properties of the level range *)

(** X1: on levels of magnitude up to 2^50, where the doubles are exact,
    clamping is idempotent: the clamped bounds of a range are left as
    they are when they are clamped again. *)
Theorem clamp_idempotent (startLevel endLevel : Z) :
  exactLevel startLevel -> exactLevel endLevel ->
  clampStartLevel (clampStartLevel startLevel) = clampStartLevel startLevel
  /\ clampEndLevel (clampEndLevel endLevel) = clampEndLevel endLevel.
Proof.
  intros _ _. split.
  - unfold clampStartLevel at 1.
    assert (H : 5 <= clampStartLevel startLevel).
    { unfold clampStartLevel. destruct (Z.ltb_spec startLevel 5).
      - now change (ceilToFive 5) with 5.
      - pose proof (ceilToFive_bounds startLevel). lia. }
    destruct (Z.ltb_spec (clampStartLevel startLevel) 5); [lia |].
    apply ceilToFive_fixed. unfold clampStartLevel.
    apply ceilToFive_multiple.
  - unfold clampEndLevel at 1.
    assert (H : clampEndLevel endLevel <= 200).
    { unfold clampEndLevel. destruct (Z.gtb_spec endLevel 200).
      - now change (ceilToFive 200) with 200.
      - pose proof (ceilToFive_mono endLevel 200 ltac:(lia)) as Hm.
        now change (ceilToFive 200) with 200 in Hm. }
    destruct (Z.gtb_spec (clampEndLevel endLevel) 200); [lia |].
    apply ceilToFive_fixed. unfold clampEndLevel.
    apply ceilToFive_multiple.
Qed.

Lemma clamp_idempotent_witness :
  clampStartLevel (clampStartLevel 3) = clampStartLevel 3
  /\ clampEndLevel (clampEndLevel 1003) = clampEndLevel 1003.
Proof.
  apply (clamp_idempotent 3 1003); unfold exactLevel; lia.
Defined.



(** X3: for a valid level range the labels of the line chart are not
    empty: they start at the clamped lower bound, end at the clamped
    upper bound, and each of them is a multiple of 5 between 5 and 200. *)
Theorem valid_range_levels (startLevel endLevel : Z) :
  validLevelRange startLevel endLevel ->
  let labels :=
    createLevelArray (clampStartLevel startLevel) (clampEndLevel endLevel) in
  head labels = Some (clampStartLevel startLevel)
  /\ last labels = Some (clampEndLevel endLevel)
  /\ Z.of_nat (length labels) =
     (clampEndLevel endLevel - clampStartLevel startLevel) / 5 + 1
  /\ forall l, In l labels -> 5 <= l <= 200 /\ l mod 5 = 0.
Proof.
  intros Hvalid labels.
  destruct Hvalid as (Hs & Hse & He).
  destruct (clamp_bounds startLevel endLevel) as (H5 & Hle & H200);
    [lia | lia | lia |].
  assert (Hms : clampStartLevel startLevel mod 5 = 0)
    by apply ceilToFive_multiple.
  assert (Hme : clampEndLevel endLevel mod 5 = 0)
    by apply ceilToFive_multiple.
  set (s := clampStartLevel startLevel) in *.
  set (e := clampEndLevel endLevel) in *.
  assert (Hdiff : (e - s) mod 5 = 0).
  { rewrite Zminus_mod, Hms, Hme. reflexivity. }
  pose proof (Z.div_mod (e - s) 5 ltac:(lia)) as Hdm.
  pose proof (Z.div_pos (e - s) 5 ltac:(lia) ltac:(lia)) as Hpos.
  assert (Hn : Z.to_nat ((e - s + 5) / 5) = S (Z.to_nat ((e - s) / 5))).
  { replace (e - s + 5) with ((e - s) + 1 * 5) by lia.
    rewrite Z.div_add by lia. lia. }
  subst labels. rewrite createLevelArray_levels. fold s e. rewrite Hn.
  split; [| split; [| split]].
  - simpl. f_equal. lia.
  - rewrite seq_S, map_app. cbn [map]. rewrite last_snoc. f_equal. lia.
  - rewrite length_map, length_seq. lia.
  - intros l Hl. apply in_map_iff in Hl as (k & <- & Hk).
    apply in_seq in Hk. split; [lia |].
    replace (s + 5 * Z.of_nat k) with (s + Z.of_nat k * 5) by lia.
    rewrite Z.mod_add by lia. exact Hms.
Qed.

Lemma valid_range_levels_witness :
  validLevelRange 7 20
  /\ createLevelArray (clampStartLevel 7) (clampEndLevel 20) = [10; 15; 20]
  /\ head (createLevelArray (clampStartLevel 7) (clampEndLevel 20))
     = Some (clampStartLevel 7).
Proof.
  assert (H : validLevelRange 7 20) by (unfold validLevelRange; lia).
  split; [exact H |]. split; [reflexivity |].
  exact (proj1 (valid_range_levels 7 20 H)).
Defined.

(** ** Further properties of the line graph helpers *)

(** X4: for one of the seven stat names, [createSingleStatArray] gives
    one entry per row of the table, in the rows' order: entry [i] is the
    stat of row [i], and is undefined exactly when that row has no such
    stat. *)
Theorem createSingleStatArray_rows (statName : string) (c : ClassData) :
  In statName statEnum ->
  length (createSingleStatArray statName c) = length (levelData c)
  /\ forall (i : nat) (entry : LevelEntry),
       levelData c !! i = Some entry ->
       createSingleStatArray statName c !! i = Some (stats entry !! statName).
Proof.
  intros _. rewrite createSingleStatArray_map. split.
  - apply length_map.
  - intros i entry Hi. now rewrite list_lookup_fmap, Hi.
Qed.

Lemma createSingleStatArray_rows_witness :
  length (createSingleStatArray "HP" Sample.RAmar)
  = length (levelData Sample.RAmar)
  /\ forall (i : nat) (entry : LevelEntry),
       levelData Sample.RAmar !! i = Some entry ->
       createSingleStatArray "HP" Sample.RAmar !! i
       = Some (stats entry !! "HP"%string).
Proof.
  apply (createSingleStatArray_rows "HP"%string Sample.RAmar).
  simpl. auto 10.
Defined.

Lemma lineModifier_value (i n : nat) :
  (0 < n)%nat ->
  lineModifier i n =
  Fin (Qred (inject_Z (Z.of_nat i)
             * Qred (inject_Z 100 / inject_Z (Z.of_nat n)))).
Proof.
  intros Hn. unfold lineModifier, Num.of_nat, Num.of_Z, Num.div, Num.mul.
  assert (Qeq_bool (inject_Z (Z.of_nat n)) 0 = false) as ->; [| reflexivity].
  destruct (Qeq_bool _ 0) eqn:H; [| reflexivity].
  apply Qeq_bool_iff in H. unfold Qeq in H. simpl in H. lia.
Qed.

Lemma modifier_rational (i n : nat) :
  (0 < n)%nat ->
  (Qred (inject_Z (Z.of_nat i) * Qred (inject_Z 100 / inject_Z (Z.of_nat n)))
   == (100 * Z.of_nat i) # (Pos.of_nat n))%Q.
Proof.
  intros Hn. rewrite Qred_correct, Qred_correct.
  unfold Qeq, Qdiv, Qmult, Qinv, inject_Z. simpl.
  destruct n as [| n]; [lia |]. simpl.
  rewrite Pos.of_nat_succ. lia.
Qed.

(** X5: the colour modifier of the line graph spreads the selected
    classes over 0..100: the first class gets 0, every class a number
    below 100, and a class further down the selection a larger one. *)
Theorem lineModifier_spread (i j n : nat) :
  (i <= j)%nat -> (j < n)%nat ->
  exists qi qj,
    lineModifier i n = Fin qi /\ lineModifier j n = Fin qj
    /\ (0 <= qi)%Q /\ (qi <= qj)%Q /\ (qj < 100)%Q
    /\ (i = 0%nat -> (qi == 0)%Q)
    /\ ((i < j)%nat -> (qi < qj)%Q).
Proof.
  intros Hij Hjn. assert (Hn : (0 < n)%nat) by lia.
  rewrite !lineModifier_value by assumption.
  eexists. eexists. split; [reflexivity |]. split; [reflexivity |].
  rewrite !modifier_rational by assumption.
  unfold Qle, Qlt, Qeq. simpl.
  assert (Hp : Z.pos (Pos.of_nat n) = Z.of_nat n).
  { rewrite <- positive_nat_Z, Nat2Pos.id by lia. reflexivity. }
  rewrite Hp. repeat split; try nia.
Qed.

Lemma lineModifier_spread_witness :
  exists qi qj,
    lineModifier 1 3 = Fin qi /\ lineModifier 2 3 = Fin qj
    /\ (0 <= qi)%Q /\ (qi <= qj)%Q /\ (qj < 100)%Q
    /\ (1%nat = 0%nat -> (qi == 0)%Q)
    /\ ((1 < 2)%nat -> (qi < qj)%Q).
Proof. apply (lineModifier_spread 1 2 3); lia. Defined.

(** The modifier [lineDataSet] hands to [getStatColor] is
    [lineModifier]. *)
Lemma lineDataSet_modifier
    (shiftColor : RGB -> number -> RGB) (selectedClasses : list string)
    (allClassData : list ClassData) (allStatColors : gmap string RGB)
    (startLevel endLevel : Z) (i : nat) (cls stat : string) :
  lineDataSet shiftColor selectedClasses allClassData allStatColors
    startLevel endLevel i cls stat =
  (c ← getCharacterClassDataObject cls allClassData;
   rgb ← getStatColor shiftColor stat allStatColors
           (lineModifier i (length selectedClasses));
   Ok (createLineChartDataSet
         (createSingleStatArray stat
            (getCharacterClassDataInRange startLevel endLevel c))
         (dataLabel cls stat) rgb)).
Proof. reflexivity. Qed.

(** X24: the data and the label of the dataset of a class and a stat do
    not depend on what else is selected: two line charts assembled over
    the same dataset and level range give the same data and label to a
    pair of a class and a stat, wherever the pair stands in either
    selection. *)
Theorem line_data_selection_independent
    (shiftColor : RGB -> number -> RGB)
    (classes1 stats1 classes2 stats2 : list string) (title1 title2 : string)
    (allClassData : list ClassData) (allStatColors : gmap string RGB)
    (startLevel endLevel : Z) (obj1 obj2 : LineGraphObject)
    (k1 k2 i1 i2 : nat) (cls stat : string) :
  assembleLineGraphObject shiftColor classes1 stats1 title1 allClassData
    allStatColors startLevel endLevel = Ok obj1 ->
  assembleLineGraphObject shiftColor classes2 stats2 title2 allClassData
    allStatColors startLevel endLevel = Ok obj2 ->
  pairsFrom 0 classes1 stats1 !! k1 = Some (i1, cls, stat) ->
  pairsFrom 0 classes2 stats2 !! k2 = Some (i2, cls, stat) ->
  exists dataSet1 dataSet2,
    lineDatasets (lineData obj1) !! k1 = Some dataSet1
    /\ lineDatasets (lineData obj2) !! k2 = Some dataSet2
    /\ data dataSet1 = data dataSet2
    /\ label dataSet1 = label dataSet2
    /\ label dataSet1 = (cls +:+ "(" +:+ stat +:+ ")")%string.
Proof.
  rewrite !assembleLineGraphObject_collect.
  destruct (collect _ (pairsFrom 0 classes1 stats1)) as [ds1 | e] eqn:H1;
    simpl; [| discriminate].
  destruct (collect _ (pairsFrom 0 classes2 stats2)) as [ds2 | e] eqn:H2;
    simpl; [| discriminate].
  intros [= <-] [= <-] Hk1 Hk2. simpl.
  apply collect_Ok in H1, H2.
  destruct (Forall2_lookup_l _ _ _ _ _ H1 Hk1) as (d1 & Hd1 & Hb1).
  destruct (Forall2_lookup_l _ _ _ _ _ H2 Hk2) as (d2 & Hd2 & Hb2).
  apply lineDataSet_Ok in Hb1 as (c1 & Hc1 & Hl1 & Hdata1).
  apply lineDataSet_Ok in Hb2 as (c2 & Hc2 & Hl2 & Hdata2).
  assert (c2 = c1) as -> by congruence.
  exists d1, d2. repeat (split; [assumption |]).
  split; [congruence |]. split; [congruence | exact Hl1].
Qed.

Lemma line_data_selection_independent_witness :
  exists obj1 obj2,
    Sample.lineGraph ["RAmar"]%string ["HP"]%string Sample.allClassData 5 15
    = Ok obj1
    /\ Sample.lineGraph ["HUcast"; "RAmar"]%string ["ATP"; "HP"]%string
         Sample.allClassData 5 15 = Ok obj2
    /\ exists dataSet1 dataSet2,
         lineDatasets (lineData obj1) !! 0%nat = Some dataSet1
         /\ lineDatasets (lineData obj2) !! 3%nat = Some dataSet2
         /\ data dataSet1 = data dataSet2
         /\ label dataSet1 = label dataSet2
         /\ label dataSet1 = "RAmar(HP)"%string.
Proof.
  eexists. eexists. split; [vm_compute; reflexivity |].
  split; [vm_compute; reflexivity |].
  eapply (line_data_selection_independent Sample.shiftColor
            ["RAmar"]%string ["HP"]%string
            ["HUcast"; "RAmar"]%string ["ATP"; "HP"]%string
            "Character stat growth" "Character stat growth"
            Sample.allClassData Sample.allStatColors 5 15 _ _ 0 3 0 1
            "RAmar"%string "HP"%string);
    vm_compute; reflexivity.
Defined.

(** ** Further properties of the radar helpers *)

Lemma zeroStats_lookup (statName : string) :
  (In statName statEnum -> zeroStats !! statName = Some Num.zero)
  /\ (~ In statName statEnum -> zeroStats !! statName = None).
Proof.
  split.
  - simpl. intros H.
    repeat (destruct H as [<- | H]; [reflexivity |]). destruct H.
  - intros H. unfold zeroStats. apply not_elem_of_list_to_map_1.
    rewrite list_elem_of_In. simpl. simpl in H. tauto.
Qed.

Lemma createMaximumStatsObject_other
    (allCharacterStatsAtLevel : list (gmap string number))
    (statNames : list string) (statName : string) :
  ~ In statName statNames ->
  createMaximumStatsObject allCharacterStatsAtLevel statNames !! statName
  = zeroStats !! statName.
Proof.
  intros Hs. unfold createMaximumStatsObject. generalize zeroStats.
  induction allCharacterStatsAtLevel as [| st rest IH]; simpl; intros m;
    [reflexivity |].
  rewrite IH. unfold maximumStep.
  apply (fold_update_notin
           (fun k o => Num.max (Num.toNumber (st !! k)) (Num.toNumber o))).
  assumption.
Qed.

Lemma max_is_argument (x y : number) : Num.max x y = x \/ Num.max x y = y.
Proof.
  destruct x as [| | a |], y as [| | b |]; simpl; auto.
  destruct (Qle_bool a b); auto.
Qed.

Lemma fold_max_attained {A : Type} (f : A -> number) (l : list A)
    (init : number) :
  let r := fold_left (fun acc a => Num.max (f a) acc) l init in
  r = init \/ exists a, In a l /\ f a = r.
Proof.
  revert init. induction l as [| a l IH]; simpl; intros init; [auto |].
  destruct (IH (Num.max (f a) init)) as [H | (a' & Hin & H)].
  - rewrite H. destruct (max_is_argument (f a) init) as [-> | ->]; eauto.
  - eauto.
Qed.

Lemma fold_max_NaN_init {A : Type} (f : A -> number) (l : list A) :
  fold_left (fun acc a => Num.max (f a) acc) l NaN = NaN.
Proof.
  induction l as [| a l IH]; simpl; [reflexivity |].
  destruct (f a); simpl; exact IH.
Qed.

Lemma fold_max_NaN {A : Type} (f : A -> number) (l : list A)
    (init : number) (a : A) :
  In a l -> f a = NaN ->
  fold_left (fun acc a => Num.max (f a) acc) l init = NaN.
Proof.
  revert init. induction l as [| a' l IH]; simpl; intros init Hin Ha;
    [tauto |].
  destruct Hin as [-> | Hin]; [| eauto].
  rewrite Ha. simpl. apply fold_max_NaN_init.
Qed.

Lemma percentage_NaN_maximum (value maximum : option number) :
  Num.toNumber maximum = NaN -> percentage value maximum = NaN.
Proof.
  intros H. unfold percentage. rewrite H.
  destruct (Num.toNumber value); reflexivity.
Qed.

(** X6: a stat of the seven that is not among [statNames] is left at its
    initial 0, in the object of maxima and in the object of
    percentages. *)
Theorem unrequested_stats_stay_zero
    (allCharacterStatsAtLevel : list (gmap string number))
    (characterStatsAtLevel maximumStatsObject : gmap string number)
    (statNames : list string) (statName : string) :
  In statName statEnum -> ~ In statName statNames ->
  createMaximumStatsObject allCharacterStatsAtLevel statNames !! statName
  = Some Num.zero
  /\ createPercentageStats characterStatsAtLevel maximumStatsObject statNames
       !! statName = Some Num.zero.
Proof.
  intros Hseven Hnot. destruct (zeroStats_lookup statName) as [Hz _].
  split.
  - rewrite createMaximumStatsObject_other by assumption. auto.
  - unfold createPercentageStats.
    rewrite (fold_update_notin
               (fun k _ => percentage (characterStatsAtLevel !! k)
                                      (maximumStatsObject !! k)))
      by assumption.
    auto.
Qed.

Lemma unrequested_stats_stay_zero_witness :
  createMaximumStatsObject
    (map (fun c => Sample.getStatsAtLevel c 10) Sample.allClassData)
    ["ATP"; "HP"]%string !! "TP"%string = Some Num.zero
  /\ createPercentageStats (Sample.getStatsAtLevel Sample.RAmar 10) ∅
       ["ATP"; "HP"]%string !! "TP"%string = Some Num.zero.
Proof.
  apply unrequested_stats_stay_zero.
  - simpl. auto 10.
  - simpl. intros [H | [H | []]]; discriminate.
Defined.

(** X7: a cross-class maximum that is a finite number is not negative,
    is at least the value of every class, and is either the initial 0 or
    the value of one of the classes. *)
Theorem maximum_attained
    (allCharacterStatsAtLevel : list (gmap string number))
    (statNames : list string) (statName : string) (m : Q) :
  In statName statNames ->
  Num.toNumber
    (createMaximumStatsObject allCharacterStatsAtLevel statNames !! statName)
  = Fin m ->
  (0 <= m)%Q
  /\ (forall characterStats,
        In characterStats allCharacterStatsAtLevel ->
        Num.leb (Num.toNumber (characterStats !! statName)) (Fin m) = true)
  /\ (Fin m = Num.zero
      \/ exists characterStats,
           In characterStats allCharacterStatsAtLevel
           /\ characterStats !! statName = Some (Fin m)).
Proof.
  intros Hin. rewrite createMaximumStatsObject_lookup by assumption.
  unfold maximumOf. intros Hmax.
  pose proof (fold_max_upper
                (fun st : gmap string number => Num.toNumber (st !! statName))
                _ _ _ Hmax) as [Hinit Hall].
  assert (Hseed : Num.toNumber (zeroStats !! statName) = Num.zero).
  { destruct (zeroStats_lookup statName) as [Hyes Hno].
    destruct (in_dec string_dec statName statEnum) as [H | H].
    - now rewrite Hyes.
    - rewrite Hno in Hinit by assumption. discriminate. }
  rewrite Hseed in *.
  split; [now apply Qle_bool_iff |]. split; [exact Hall |].
  pose proof (fold_max_attained
                (fun st : gmap string number => Num.toNumber (st !! statName))
                allCharacterStatsAtLevel Num.zero) as Hatt.
  simpl in Hatt. rewrite Hmax in Hatt.
  destruct Hatt as [H | (st & Hst & H)]; [auto |].
  right. exists st. split; [assumption |].
  destruct (st !! statName) as [x |]; simpl in H; [now subst | discriminate].
Qed.

Lemma maximum_attained_witness :
  (0 <= 60)%Q
  /\ (forall characterStats,
        In characterStats
           (map (fun c => Sample.getStatsAtLevel c 10) Sample.allClassData) ->
        Num.leb (Num.toNumber (characterStats !! "ATP"%string)) (Fin 60)
        = true)
  /\ (Fin 60 = Num.zero
      \/ exists characterStats,
           In characterStats
              (map (fun c => Sample.getStatsAtLevel c 10) Sample.allClassData)
           /\ characterStats !! "ATP"%string = Some (Fin 60)).
Proof.
  apply (maximum_attained
           (map (fun c => Sample.getStatsAtLevel c 10) Sample.allClassData)
           ["ATP"; "HP"]%string "ATP"%string 60).
  - simpl. auto.
  - vm_compute. reflexivity.
Defined.

(** X8: one class whose value for a stat is undefined or NaN makes the
    cross-class maximum of that stat NaN, and with it the percentage of
    every class for that stat. *)
Theorem missing_value_poisons_maximum
    (allCharacterStatsAtLevel : list (gmap string number))
    (statNames : list string) (statName : string)
    (characterStats : gmap string number) :
  In statName statNames ->
  In characterStats allCharacterStatsAtLevel ->
  Num.toNumber (characterStats !! statName) = NaN ->
  Num.toNumber
    (createMaximumStatsObject allCharacterStatsAtLevel statNames !! statName)
  = NaN
  /\ forall characterStatsAtLevel,
       createPercentageStats characterStatsAtLevel
         (createMaximumStatsObject allCharacterStatsAtLevel statNames)
         statNames !! statName = Some NaN.
Proof.
  intros Hin Hst Hnan.
  assert (Hmax : Num.toNumber
                   (createMaximumStatsObject allCharacterStatsAtLevel
                      statNames !! statName) = NaN).
  { rewrite createMaximumStatsObject_lookup by assumption. unfold maximumOf.
    apply (fold_max_NaN
             (fun st : gmap string number => Num.toNumber (st !! statName))
             _ _ characterStats); assumption. }
  split; [exact Hmax |]. intros cs.
  rewrite createPercentageStats_lookup by assumption.
  now rewrite percentage_NaN_maximum.
Qed.

Lemma missing_value_poisons_maximum_witness :
  Num.toNumber
    (createMaximumStatsObject
       [Sample.getStatsAtLevel Sample.HUcast 10; ∅]
       ["ATP"]%string !! "ATP"%string) = NaN
  /\ forall characterStatsAtLevel,
       createPercentageStats characterStatsAtLevel
         (createMaximumStatsObject
            [Sample.getStatsAtLevel Sample.HUcast 10; ∅] ["ATP"]%string)
         ["ATP"]%string !! "ATP"%string = Some NaN.
Proof.
  apply (missing_value_poisons_maximum
           [Sample.getStatsAtLevel Sample.HUcast 10; ∅]
           ["ATP"]%string "ATP"%string ∅).
  - simpl. auto.
  - simpl. auto.
  - reflexivity.
Defined.

(** X9: a stat name that is neither one of the seven of the initial
    object nor a property name of [Object.prototype] has no initial
    maximum, so its percentage is NaN for every class, whatever the
    dataset holds. *)
Theorem unknown_stat_name_gives_NaN
    (allCharacterStatsAtLevel : list (gmap string number))
    (characterStatsAtLevel : gmap string number)
    (statNames : list string) (statName : string) :
  In statName statNames -> ~ In statName statEnum ->
  ~ In statName objectPrototypeNames ->
  createPercentageStats characterStatsAtLevel
    (createMaximumStatsObject allCharacterStatsAtLevel statNames)
    statNames !! statName = Some NaN.
Proof.
  intros Hin Hnot _. rewrite createPercentageStats_lookup by assumption.
  rewrite percentage_NaN_maximum; [reflexivity |].
  rewrite createMaximumStatsObject_lookup by assumption. unfold maximumOf.
  destruct (zeroStats_lookup statName) as [_ ->]; [| assumption].
  apply fold_max_NaN_init.
Qed.

Lemma unknown_stat_name_gives_NaN_witness :
  createPercentageStats (Sample.getStatsAtLevel Sample.HUcast 10)
    (createMaximumStatsObject
       (map (fun c => Sample.getStatsAtLevel c 10) Sample.allClassData)
       ["ATP"; "LCK"]%string)
    ["ATP"; "LCK"]%string !! "LCK"%string = Some NaN.
Proof.
  apply unknown_stat_name_gives_NaN.
  - simpl. auto.
  - simpl. intros H.
    repeat (destruct H as [H | H]; [discriminate |]). destruct H.
  - simpl. intros H.
    repeat (destruct H as [H | H]; [discriminate |]). destruct H.
Defined.

(** X10: when no stat name is a property name of [Object.prototype],
    the data of a radar dataset have one entry per stat name, in the
    order of [statNames], and no entry is undefined: entry [j] is the
    percentage of the stat named at [j]. *)
Theorem radar_data_defined
    (characterStatsAtLevel maximumStatsObject : gmap string number)
    (statNames : list string) :
  (forall statName, In statName statNames ->
                    ~ In statName objectPrototypeNames) ->
  let percentageStatArray :=
    createStatArray
      (createPercentageStats characterStatsAtLevel maximumStatsObject
                             statNames) statNames in
  length percentageStatArray = length statNames
  /\ forall (j : nat) (statName : string),
       statNames !! j = Some statName ->
       percentageStatArray !! j =
       Some (Some (percentage (characterStatsAtLevel !! statName)
                              (maximumStatsObject !! statName))).
Proof.
  intros _. simpl. rewrite createStatArray_map. split; [apply length_map |].
  intros j statName Hj. rewrite list_lookup_fmap, Hj. simpl. f_equal.
  apply createPercentageStats_lookup.
  apply list_elem_of_In, list_elem_of_lookup. eauto.
Qed.

Lemma radar_data_defined_witness :
  length
    (createStatArray
       (createPercentageStats (Sample.getStatsAtLevel Sample.RAmar 10)
          (maximumStatsAt Sample.getStatsAtLevel Sample.allClassData 10
             ["ATP"; "LCK"]%string)
          ["ATP"; "LCK"]%string)
       ["ATP"; "LCK"]%string) = 2%nat.
Proof.
  apply (radar_data_defined (Sample.getStatsAtLevel Sample.RAmar 10)
           (maximumStatsAt Sample.getStatsAtLevel Sample.allClassData 10
              ["ATP"; "LCK"]%string)
           ["ATP"; "LCK"]%string).
  intros statName [<- | [<- | []]]; simpl; intros H;
    repeat (destruct H as [H | H]; [discriminate |]); destruct H.
Defined.

(** X11: with a positive maximum the percentage keeps the order of the
    values: a class with a larger value never gets a smaller
    percentage. *)
Theorem percentage_monotone (v1 v2 m : Q) :
  (0 < m)%Q -> (v1 <= v2)%Q ->
  Num.leb (percentage (Some (Fin v1)) (Some (Fin m)))
          (percentage (Some (Fin v2)) (Some (Fin m))) = true.
Proof.
  intros Hm Hv. unfold percentage. simpl.
  assert (Qeq_bool m 0 = false) as ->.
  { destruct (Qeq_bool m 0) eqn:H; [| reflexivity].
    apply Qeq_bool_iff in H. rewrite H in Hm.
    exfalso. exact (Qlt_irrefl _ Hm). }
  simpl.
  assert (Hinv : (0 < / m)%Q) by now apply Qinv_lt_0_compat.
  apply Qle_bool_iff. rewrite !Qred_correct.
  apply Qmult_le_compat_r; [| discriminate].
  unfold Qdiv. apply Qmult_le_compat_r; [assumption |].
  now apply Qlt_le_weak.
Qed.

Lemma percentage_monotone_witness :
  Num.leb (percentage (Some (Fin 45)) (Some (Fin 60)))
          (percentage (Some (Fin 60)) (Some (Fin 60))) = true.
Proof.
  apply (percentage_monotone 45 60 60).
  - unfold Qlt. simpl. lia.
  - unfold Qle. simpl. lia.
Defined.

(** X12: the radar datasets of a selection made of two parts are the
    datasets of the first part followed by those of the second; an error
    in either part is the error of the whole, the first part's first. *)
Theorem radar_datasets_append
    (getStatsAtLevel : ClassData -> Z -> gmap string number)
    (selected1 selected2 : list string) (allClassData : list ClassData)
    (characterColors : gmap string CharacterColor) (selectedLevel : Z)
    (statNames : list string) :
  createRadarChartDataSets getStatsAtLevel (selected1 ++ selected2)
    allClassData characterColors selectedLevel statNames =
  (dataSets1 ← createRadarChartDataSets getStatsAtLevel selected1
                 allClassData characterColors selectedLevel statNames;
   dataSets2 ← createRadarChartDataSets getStatsAtLevel selected2
                 allClassData characterColors selectedLevel statNames;
   Ok (dataSets1 ++ dataSets2)).
Proof.
  unfold createRadarChartDataSets. rewrite !radarLoop_collect, collect_app.
  destruct (collect _ selected1) as [ds1 | e]; simpl; [| reflexivity].
  destruct (collect _ selected2) as [ds2 | e]; simpl; reflexivity.
Qed.

(** ** Properties of the click handlers *)

Lemma pushIf_app (cond : bool) (x : string) (arr : list string) :
  pushIf cond x arr = arr ++ (if cond then [x] else []).
Proof. destruct cond; simpl; [reflexivity | now rewrite app_nil_r]. Qed.

Lemma filter_cons_app (p : string -> bool) (x : string) (l : list string) :
  List.filter p (x :: l) = (if p x then [x] else []) ++ List.filter p l.
Proof. simpl. destruct (p x); reflexivity. Qed.

Lemma NoDup_filter_list (p : string -> bool) (l : list string) :
  List.NoDup l -> List.NoDup (List.filter p l).
Proof. apply List.NoDup_filter. Qed.

(** X13: [getSelectedClasses] returns the classes whose box is checked,
    each once, in the order of the boxes on the page. *)
Theorem getSelectedClasses_checked (checked : string -> bool) :
  getSelectedClasses checked =
  List.filter (fun cls => checked ("#cb" +:+ cls)) classNames
  /\ List.NoDup (getSelectedClasses checked)
  /\ forall cls,
       In cls (getSelectedClasses checked) <->
       In cls classNames /\ checked ("#cb" +:+ cls) = true.
Proof.
  assert (H : getSelectedClasses checked =
              List.filter (fun cls => checked ("#cb" +:+ cls)) classNames).
  { unfold getSelectedClasses, classNames. cbv zeta.
    rewrite !pushIf_app, !filter_cons_app. simpl String.append.
    cbn [List.filter]. rewrite app_nil_r, <- !app_assoc. reflexivity. }
  split; [exact H |]. rewrite H. split.
  - apply NoDup_filter_list. unfold classNames.
    repeat (constructor; [simpl; intuition discriminate |]). constructor.
  - intros cls.
    exact (filter_In (fun c => checked ("#cb" +:+ c)) cls classNames).
Qed.

(** X14: [getSelectedStats] returns the stats whose box is checked, each
    once, in the order ATP, DFP, MST, ATA, EVP, HP, TP; every name it
    returns is one of the seven stats. *)
Theorem getSelectedStats_checked (checked : string -> bool) :
  getSelectedStats checked =
  List.filter (fun stat => checked ("#cb" +:+ stat)) statEnum
  /\ List.NoDup (getSelectedStats checked)
  /\ forall stat,
       In stat (getSelectedStats checked) <->
       In stat statEnum /\ checked ("#cb" +:+ stat) = true.
Proof.
  assert (H : getSelectedStats checked =
              List.filter (fun stat => checked ("#cb" +:+ stat)) statEnum).
  { unfold getSelectedStats, statEnum. cbv zeta.
    rewrite !pushIf_app, !filter_cons_app. simpl String.append.
    cbn [List.filter]. rewrite app_nil_r, <- !app_assoc. reflexivity. }
  split; [exact H |]. rewrite H. split.
  - apply NoDup_filter_list. unfold statEnum.
    repeat (constructor; [simpl; intuition discriminate |]). constructor.
  - intros stat.
    exact (filter_In (fun s => checked ("#cb" +:+ s)) stat statEnum).
Qed.

Lemma string_append_assoc (s1 s2 s3 : string) :
  (s1 +:+ s2) +:+ s3 = s1 +:+ (s2 +:+ s3).
Proof.
  induction s1 as [| a s1 IH]; [reflexivity |].
  change (String a ((s1 +:+ s2) +:+ s3) = String a (s1 +:+ (s2 +:+ s3))).
  now rewrite IH.
Qed.

Lemma string_append_nil_r (s : string) : s +:+ "" = s.
Proof.
  induction s as [| a s IH]; [reflexivity |].
  change (String a (s +:+ "") = String a s). now rewrite IH.
Qed.

Lemma createErrorDivs_fold (messages : list string) (divs : string) :
  fold_left (fun divs message => ((divs +:+ "<div>") +:+ message) +:+ "</div>")
            messages divs =
  divs +:+ createErrorDivs messages.
Proof.
  unfold createErrorDivs. cbv zeta. revert divs.
  induction messages as [| m rest IH]; intros divs.
  - simpl. now rewrite string_append_nil_r.
  - cbn [fold_left]. rewrite IH.
    rewrite (IH ((("" +:+ "<div>") +:+ m) +:+ "</div>")).
    change ("" +:+ "<div>") with "<div>".
    rewrite !string_append_assoc. reflexivity.
Qed.

(** X15: [createErrorDivs] wraps each message in a [div] and keeps the
    order: the markup of two lists of messages one after the other is
    the markup of the first followed by that of the second, no message
    gives the empty string, and any message gives markup that is not
    empty. *)
Theorem createErrorDivs_append (messages1 messages2 : list string)
    (message : string) :
  createErrorDivs [] = ""%string
  /\ createErrorDivs [message] = "<div>" +:+ message +:+ "</div>"
  /\ createErrorDivs (messages1 ++ messages2) =
     createErrorDivs messages1 +:+ createErrorDivs messages2
  /\ createErrorDivs (message :: messages1) <> ""%string.
Proof.
  split; [reflexivity |]. split; [reflexivity |]. split.
  - unfold createErrorDivs at 1. cbv zeta.
    rewrite fold_left_app. fold (createErrorDivs messages1).
    exact (createErrorDivs_fold messages2 (createErrorDivs messages1)).
  - unfold createErrorDivs. cbv zeta. cbn [fold_left].
    rewrite createErrorDivs_fold. discriminate.
Qed.

Lemma rejectIf_messages (cond : bool) (message : string) (v : Validation) :
  (isValid v = true <-> errorMessages v = []) ->
  (isValid (rejectIf cond message v) = true
   <-> errorMessages (rejectIf cond message v) = [])
  /\ (isValid (rejectIf cond message v) = true
      <-> cond = false /\ isValid v = true).
Proof.
  intros Hv. destruct cond; simpl.
  - split; split; try discriminate.
    + intros H. now apply app_eq_nil in H as [_ H].
    + intros [H _]. discriminate.
  - split; [exact Hv |]. tauto.
Qed.

(** The checks of [lineGraphClick], read as a whole. *)
Lemma lineGraphValidation_spec
    (start0 end0 : option Z) (selectedClasses selectedStats : list string) :
  let v := lineGraphValidation (lineStartLevel start0) (lineEndLevel end0)
                               selectedClasses selectedStats in
  (isValid v = true <-> errorMessages v = [])
  /\ (isValid v = true <->
      exists s e,
        start0 = Some s /\ end0 = Some e
        /\ Z.max s 5 < Z.min e 200
        /\ selectedClasses <> [] /\ selectedStats <> []).
Proof.
  intros v. subst v. unfold lineGraphValidation. cbv zeta.
  set (v0 := {| errorMessages := []; isValid := true |}).
  assert (H0 : isValid v0 = true <-> errorMessages v0 = []) by (simpl; tauto).
  set (v1 := rejectIf (levelIsNaN (lineStartLevel start0)) _ v0).
  destruct (rejectIf_messages (levelIsNaN (lineStartLevel start0))
              "Please enter a valid start level." v0 H0) as [H1 A1].
  fold v1 in H1, A1.
  set (v2 := rejectIf (levelIsNaN (lineEndLevel end0)) _ v1).
  destruct (rejectIf_messages (levelIsNaN (lineEndLevel end0))
              "Please enter a valid end level." v1 H1) as [H2 A2].
  fold v2 in H2, A2.
  set (v3 := rejectIf (length selectedClasses <? 1)%nat _ v2).
  destruct (rejectIf_messages (length selectedClasses <? 1)%nat
              "Please select atleast one class." v2 H2) as [H3 A3].
  fold v3 in H3, A3.
  set (v4 := rejectIf (length selectedStats <? 1)%nat _ v3).
  destruct (rejectIf_messages (length selectedStats <? 1)%nat
              "Please select atleast one stat." v3 H3) as [H4 A4].
  fold v4 in H4, A4.
  destruct (rejectIf_messages
              (levelGe (lineStartLevel start0) (lineEndLevel end0))
              "Start level should be lower than end level." v4 H4)
    as [H5 A5].
  split; [exact H5 |].
  assert (Hiff : isValid
                   (rejectIf (levelGe (lineStartLevel start0)
                                      (lineEndLevel end0))
                      "Start level should be lower than end level." v4)
                 = true <->
                 exists s e,
                   start0 = Some s /\ end0 = Some e
                   /\ Z.max s 5 < Z.min e 200
                   /\ selectedClasses <> [] /\ selectedStats <> []).
  { rewrite A5, A4, A3, A2, A1. unfold lineStartLevel, lineEndLevel.
    split.
    - intros (Hge & Hss & Hcs & He & Hs & _).
      destruct start0 as [s |], end0 as [e |]; simpl in *;
        try (destruct (s <? 5); discriminate); try discriminate.
      exists s, e. split; [reflexivity |]. split; [reflexivity |].
      split.
      + destruct (Z.ltb_spec s 5), (Z.gtb_spec e 200); simpl in Hge;
          rewrite Z.geb_leb in Hge; apply Z.leb_gt in Hge; lia.
      + split; intros Heq; [rewrite Heq in Hcs | rewrite Heq in Hss];
          discriminate.
    - intros (s & e & -> & -> & Hlt & Hcs & Hss). simpl.
      repeat split.
      + destruct (Z.ltb_spec s 5), (Z.gtb_spec e 200); simpl;
          rewrite Z.geb_leb; apply Z.leb_gt; lia.
      + clear -Hss. destruct selectedStats; [congruence | reflexivity].
      + clear -Hcs. destruct selectedClasses; [congruence | reflexivity].
      + destruct (e >? 200); reflexivity.
      + destruct (s <? 5); reflexivity. }
  exact Hiff.
Qed.

(** X16: [lineGraphClick] accepts a click exactly when no message was
    collected, which is when both levels are numbers, the start level
    raised to 5 lies below the end level lowered to 200, and a class and
    a stat are selected.  The levels it then passes to the assembler
    form a valid range. *)
Theorem lineGraphValidation_accepts
    (start0 end0 : option Z) (selectedClasses selectedStats : list string) :
  let v := lineGraphValidation (lineStartLevel start0) (lineEndLevel end0)
                               selectedClasses selectedStats in
  (isValid v = true <-> errorMessages v = [])
  /\ (isValid v = true <->
      exists s e,
        start0 = Some s /\ end0 = Some e
        /\ Z.max s 5 < Z.min e 200
        /\ selectedClasses <> [] /\ selectedStats <> [])
  /\ (isValid v = true ->
      exists s e,
        lineStartLevel start0 = Some s /\ lineEndLevel end0 = Some e
        /\ s < e /\ validLevelRange s e).
Proof.
  intros v.
  destruct (lineGraphValidation_spec start0 end0 selectedClasses
              selectedStats) as [Hmsg Hiff].
  fold v in Hmsg, Hiff. split; [exact Hmsg |]. split; [exact Hiff |].
  intros Hvalid. apply Hiff in Hvalid as (s & e & -> & -> & Hlt & _ & _).
  exists (Z.max s 5), (Z.min e 200). unfold lineStartLevel, lineEndLevel.
  simpl. unfold validLevelRange.
  destruct (Z.ltb_spec s 5), (Z.gtb_spec e 200);
    repeat split; try (f_equal; lia); lia.
Qed.

Lemma lineGraphValidation_accepts_witness :
  exists s e,
    lineStartLevel (Some 3) = Some s /\ lineEndLevel (Some 250) = Some e
    /\ s < e /\ validLevelRange s e.
Proof.
  apply (lineGraphValidation_accepts (Some 3) (Some 250)
           ["HUcast"]%string ["ATP"]%string).
  reflexivity.
Defined.

(** X17: the level [radarChartClick] passes to the assembler is the
    level read when that lies in 5..200, and 205 in every other case:
    never a level below 5, and never one above 205. *)
Theorem radarSelectedLevel_range (level0 : option Z) :
  (5 <= radarSelectedLevel level0 <= 200 \/ radarSelectedLevel level0 = 205)
  /\ (forall l, level0 = Some l -> 5 <= l <= 200 ->
                radarSelectedLevel level0 = l)
  /\ (radarSelectedLevel level0 = 205 <->
      level0 = None \/ exists l, level0 = Some l /\ (l < 5 \/ 200 < l)).
Proof.
  unfold radarSelectedLevel. destruct level0 as [l |].
  - destruct (Z.ltb_spec l 5), (Z.gtb_spec l 200); simpl.
    + lia.
    + split; [auto |]. split; [intros l' [= <-]; lia |].
      split; [eauto 6 |]. reflexivity.
    + split; [auto |]. split; [intros l' [= <-]; lia |].
      split; [eauto 6 |]. reflexivity.
    + split; [lia |]. split; [intros l' [= <-]; reflexivity |].
      split; [lia |]. intros [Hn | (l' & [= <-] & Hn)]; [discriminate | lia].
  - split; [auto |]. split; [discriminate |]. split; auto.
Qed.

Lemma existsb_eqb_In (token : string) (tokens : list string) :
  existsb (String.eqb token) tokens = true <-> In token tokens.
Proof.
  rewrite existsb_exists. split.
  - intros (t & Hin & Heq). apply String.eqb_eq in Heq. now subst.
  - intros Hin. exists token. split; [assumption | apply String.eqb_refl].
Qed.

(** X18: [hideError] leaves the error element hidden and empty and
    [showError] leaves it shown with the markup it was given, whatever
    the element was before; neither touches another class of the
    element, and hiding twice is hiding once. *)
Theorem error_element_toggle (divs : string) (element : Element) :
  (isHidden (hideError element) = true
   /\ innerHTML (hideError element) = ""%string)
  /\ (isHidden (showError divs element) = false
      /\ innerHTML (showError divs element) = divs)
  /\ hideError (hideError element) = hideError element
  /\ forall token, token <> "hidden"%string ->
       (In token (classList (hideError element))
        <-> In token (classList element))
       /\ (In token (classList (showError divs element))
           <-> In token (classList element)).
Proof.
  assert (Hadd : existsb (String.eqb "hidden")
                   (classListAdd "hidden" (classList element)) = true).
  { unfold classListAdd.
    destruct (existsb _ (classList element)) eqn:H; [exact H |].
    rewrite existsb_app. simpl. apply orb_true_r. }
  split; [split; [exact Hadd | reflexivity] |].
  split; [split; [| reflexivity] |].
  { clear Hadd.
    unfold isHidden, showError, classListRemove. cbn [classList innerHTML].
    destruct (existsb _ _) eqn:H; [| reflexivity].
    apply existsb_eqb_In, filter_In in H as [_ H].
    now rewrite String.eqb_refl in H. }
  split.
  - unfold hideError. cbn [classList innerHTML]. f_equal.
    unfold classListAdd at 1. rewrite Hadd. reflexivity.
  - intros token Hne. split.
    + clear Hadd. unfold hideError, classListAdd. cbn [classList innerHTML].
      destruct (existsb _ (classList element)); [reflexivity |].
      rewrite in_app_iff. simpl. intuition congruence.
    + unfold showError, classListRemove. cbn [classList innerHTML].
      rewrite filter_In.
      split; [tauto |]. intros H. split; [assumption |].
      destruct (String.eqb_spec "hidden" token); [congruence | reflexivity].
Qed.

Lemma createErrorDivs_nonempty (messages : list string) :
  messages <> [] -> createErrorDivs messages <> ""%string.
Proof.
  destruct messages as [| m rest]; [congruence |]. intros _.
  unfold createErrorDivs. cbv zeta. cbn [fold_left].
  rewrite createErrorDivs_fold. discriminate.
Qed.

Lemma isHidden_hideError (element : Element) :
  isHidden (hideError element) = true.
Proof.
  unfold isHidden, hideError, classListAdd. cbn [classList].
  destruct (existsb _ (classList element)) eqn:H; [exact H |].
  rewrite existsb_app. cbn [existsb]. rewrite String.eqb_refl.
  apply orb_true_r.
Qed.

Lemma isHidden_showError (divs : string) (element : Element) :
  isHidden (showError divs element) = false.
Proof.
  unfold isHidden, showError, classListRemove. cbn [classList].
  destruct (existsb _ _) eqn:H; [| reflexivity].
  apply existsb_eqb_In, filter_In in H as [_ H].
  now rewrite String.eqb_refl in H.
Qed.

Lemma clamp_absorbs_handler (s e : Z) :
  clampStartLevel (Z.max s 5) = clampStartLevel s
  /\ clampEndLevel (Z.min e 200) = clampEndLevel e.
Proof.
  unfold clampStartLevel, clampEndLevel. split.
  - destruct (Z.ltb_spec s 5), (Z.ltb_spec (Z.max s 5) 5); try lia.
    + now replace (Z.max s 5) with 5 by lia.
    + now replace (Z.max s 5) with s by lia.
  - destruct (Z.gtb_spec e 200), (Z.gtb_spec (Z.min e 200) 200); try lia.
    + now replace (Z.min e 200) with 200 by lia.
    + now replace (Z.min e 200) with e by lia.
Qed.

Lemma destroyIfSet_empty {A : Type} (global : option nat)
    (charts : Charts A) :
  atMostOneChart global charts -> alive (destroyIfSet global charts) = ∅.
Proof.
  intros [Hempty | (id & config & -> & Halive)].
  - destruct global; simpl; rewrite Hempty; [apply delete_empty | reflexivity].
  - simpl. rewrite Halive. apply delete_singleton_eq.
Qed.

Lemma atMostOneChart_size {A : Type} (global : option nat)
    (charts : Charts A) :
  atMostOneChart global charts -> (size (alive charts) <= 1)%nat.
Proof.
  intros [-> | (id & config & _ & ->)].
  - rewrite map_size_empty. lia.
  - rewrite map_size_singleton. lia.
Qed.

Section LinePageFacts.

Variable shiftColor : RGB -> number -> RGB.
Variable _allClassData : list ClassData.
Variable _allStatColors : gmap string RGB.

Let click := lineGraphClick shiftColor _allClassData _allStatColors.

(** X19: a click that [lineGraphClick] rejects draws nothing and throws
    nothing: the previous chart is destroyed, and the error element is
    shown with the markup of the messages, which is not empty. *)
Theorem lineGraphClick_rejected (inputs : LineInputs) (page : LinePage) :
  let v := lineGraphValidation
             (lineStartLevel (tbStart inputs)) (lineEndLevel (tbEnd inputs))
             (getSelectedClasses (lineChecked inputs))
             (getSelectedStats (lineChecked inputs)) in
  isValid v = false ->
  snd (click inputs page) = None
  /\ graph (fst (click inputs page)) = graph page
  /\ lineCharts (fst (click inputs page))
     = destroyIfSet (graph page) (lineCharts page)
  /\ isHidden (lineError (fst (click inputs page))) = false
  /\ innerHTML (lineError (fst (click inputs page)))
     = createErrorDivs (errorMessages v)
  /\ innerHTML (lineError (fst (click inputs page))) <> ""%string.
Proof.
  intros v Hv. unfold click, lineGraphClick. cbv zeta. fold v.
  rewrite Hv. cbn [fst snd graph lineCharts lineError].
  repeat (split; [reflexivity |]).
  split; [apply isHidden_showError |]. split; [reflexivity |].
  cbn [innerHTML showError]. apply createErrorDivs_nonempty.
  intros Hnil.
  destruct (lineGraphValidation_spec (tbStart inputs) (tbEnd inputs)
              (getSelectedClasses (lineChecked inputs))
              (getSelectedStats (lineChecked inputs))) as [Hiff _].
  fold v in Hiff. apply Hiff in Hnil. congruence.
Qed.

(** X20: a click that [lineGraphClick] accepts hides and empties the
    error element and calls the assembler with the selections of the
    check boxes and the levels read, the start raised to 5 and the end
    lowered to 200.  When the assembler returns, its chart object is
    drawn as a new chart that [graph] names, with the levels of the
    clamped range of the levels read as labels; when it throws, the
    error leaves the handler and [graph] is not reassigned. *)
Theorem lineGraphClick_accepted (inputs : LineInputs) (page : LinePage) :
  let selectedClasses := getSelectedClasses (lineChecked inputs) in
  let selectedStats := getSelectedStats (lineChecked inputs) in
  isValid (lineGraphValidation
             (lineStartLevel (tbStart inputs)) (lineEndLevel (tbEnd inputs))
             selectedClasses selectedStats) = true ->
  exists s e,
    tbStart inputs = Some s /\ tbEnd inputs = Some e
    /\ isHidden (lineError (fst (click inputs page))) = true
    /\ innerHTML (lineError (fst (click inputs page))) = ""%string
    /\ match assembleLineGraphObject shiftColor selectedClasses selectedStats
               "Character stat growth" _allClassData _allStatColors
               (Z.max s 5) (Z.min e 200) with
       | Ok obj =>
           snd (click inputs page) = None
           /\ graph (fst (click inputs page))
              = Some (created (lineCharts page))
           /\ alive (lineCharts (fst (click inputs page)))
                !! created (lineCharts page) = Some obj
           /\ lineLabels (lineData obj) =
              map (fun l => JNumber (Num.of_Z l))
                  (createLevelArray (clampStartLevel s) (clampEndLevel e))
       | Err err =>
           snd (click inputs page) = Some err
           /\ graph (fst (click inputs page)) = graph page
       end.
Proof.
  intros selectedClasses selectedStats Hv.
  destruct (lineGraphValidation_spec (tbStart inputs) (tbEnd inputs)
              selectedClasses selectedStats) as (_ & Hiff).
  destruct (proj1 Hiff Hv) as (s & e & Hs & He & Hlt & _ & _).
  exists s, e. split; [assumption |]. split; [assumption |].
  unfold click, lineGraphClick. cbv zeta.
  fold selectedClasses selectedStats. rewrite Hv, Hs, He.
  assert (lineStartLevel (Some s) = Some (Z.max s 5)) as ->.
  { unfold lineStartLevel. simpl. destruct (Z.ltb_spec s 5); f_equal; lia. }
  assert (lineEndLevel (Some e) = Some (Z.min e 200)) as ->.
  { unfold lineEndLevel. simpl. destruct (Z.gtb_spec e 200); f_equal; lia. }
  destruct (assembleLineGraphObject _ _ _ _ _ _ _ _) as [obj | err] eqn:Hobj;
    cbn [fst snd graph lineCharts lineError newChart alive].
  - split; [apply isHidden_hideError |]. split; [reflexivity |].
    split; [reflexivity |]. split.
    { destruct page as [g el [n al]]. destruct g; reflexivity. }
    split.
    { destruct page as [g el [n al]].
      destruct g; simpl; apply lookup_insert_eq. }
    rewrite assembleLineGraphObject_collect in Hobj.
    destruct (collect _ _) as [ds | err]; simpl in Hobj; [| discriminate].
    injection Hobj as <-. simpl. unfold lineLabelsOf.
    destruct (clamp_absorbs_handler s e) as [-> ->]. reflexivity.
  - split; [apply isHidden_hideError |]. split; [reflexivity |].
    split; reflexivity.
Qed.

Lemma lineGraphClick_keeps_one_chart (inputs : LineInputs) (page : LinePage) :
  atMostOneChart (graph page) (lineCharts page) ->
  atMostOneChart (graph (fst (click inputs page)))
                 (lineCharts (fst (click inputs page))).
Proof.
  intros Hinv. pose proof (destroyIfSet_empty _ _ Hinv) as Hempty.
  unfold click, lineGraphClick. cbv zeta.
  destruct (isValid _); [| left; exact Hempty].
  destruct (lineStartLevel _); [| left; exact Hempty].
  destruct (lineEndLevel _); [| left; exact Hempty].
  destruct (assembleLineGraphObject _ _ _ _ _ _ _ _) as [obj | err];
    [| left; exact Hempty].
  right. cbn [fst graph lineCharts newChart alive].
  eexists. eexists. split; [reflexivity |].
  rewrite Hempty. apply insert_empty.
Qed.

(** X21: after any series of clicks on a line page on which at most the
    chart named by [graph] was alive, at most one chart is alive on the
    canvas, and it is the one [graph] names: a chart is destroyed before
    the next one is drawn. *)
Theorem lineGraphClicks_one_chart (clicks : list LineInputs)
    (page : LinePage) :
  atMostOneChart (graph page) (lineCharts page) ->
  let page' := lineGraphClicks shiftColor _allClassData _allStatColors
                               clicks page in
  atMostOneChart (graph page') (lineCharts page')
  /\ (size (alive (lineCharts page')) <= 1)%nat.
Proof.
  intros Hinv page'.
  assert (H : atMostOneChart (graph page') (lineCharts page')).
  { subst page'. unfold lineGraphClicks. revert page Hinv.
    induction clicks as [| inputs rest IH]; intros page Hinv; [exact Hinv |].
    cbn [fold_left]. apply IH. now apply lineGraphClick_keeps_one_chart. }
  split; [exact H |]. eapply atMostOneChart_size; exact H.
Qed.

End LinePageFacts.

Lemma lineGraphClick_rejected_witness :
  snd (lineGraphClick Sample.shiftColor Sample.allClassData
         Sample.allStatColors
         {| tbStart := Some 50; tbEnd := None;
            lineChecked := fun sel => String.eqb sel "#cbHUcast" |}
         initialLinePage) = None
  /\ innerHTML
       (lineError
          (fst (lineGraphClick Sample.shiftColor Sample.allClassData
                  Sample.allStatColors
                  {| tbStart := Some 50; tbEnd := None;
                     lineChecked := fun sel => String.eqb sel "#cbHUcast" |}
                  initialLinePage)))
     = ("<div>Please enter a valid end level.</div>"
        +:+ "<div>Please select atleast one stat.</div>")%string.
Proof.
  destruct (lineGraphClick_rejected Sample.shiftColor Sample.allClassData
              Sample.allStatColors
              {| tbStart := Some 50; tbEnd := None;
                 lineChecked := fun sel => String.eqb sel "#cbHUcast" |}
              initialLinePage) as (H1 & _ & _ & _ & H2 & _);
    [reflexivity |].
  split; [exact H1 |]. rewrite H2. reflexivity.
Defined.

Lemma lineGraphClick_accepted_witness :
  exists s e,
    Some 3 = Some s /\ Some 12 = Some e
    /\ isHidden
         (lineError
            (fst (lineGraphClick Sample.shiftColor Sample.allClassData
                    Sample.allStatColors
                    {| tbStart := Some 3; tbEnd := Some 12;
                       lineChecked := fun sel =>
                         String.eqb sel "#cbHUcast"
                         || String.eqb sel "#cbATP" |}
                    initialLinePage))) = true.
Proof.
  destruct (lineGraphClick_accepted Sample.shiftColor
              Sample.allClassData Sample.allStatColors
              {| tbStart := Some 3; tbEnd := Some 12;
                 lineChecked := fun sel =>
                   String.eqb sel "#cbHUcast" || String.eqb sel "#cbATP" |}
              initialLinePage) as (s & e & Hs & He & Hh & _);
    [reflexivity |].
  exists s, e. auto.
Defined.

Lemma lineGraphClicks_one_chart_witness :
  (size
     (alive
        (lineCharts
           (lineGraphClicks Sample.shiftColor Sample.allClassData
              Sample.allStatColors
              [ {| tbStart := Some 3%Z; tbEnd := Some 12%Z;
                   lineChecked := fun sel =>
                     String.eqb sel "#cbHUcast" || String.eqb sel "#cbATP" |};
                {| tbStart := Some 5%Z; tbEnd := Some 15%Z;
                   lineChecked := fun sel =>
                     String.eqb sel "#cbRAmar" || String.eqb sel "#cbHP" |} ]
              initialLinePage))) <= 1)%nat.
Proof.
  apply (lineGraphClicks_one_chart Sample.shiftColor Sample.allClassData
           Sample.allStatColors).
  left. reflexivity.
Defined.

Section RadarPageFacts.

Variable getStatsAtLevel : ClassData -> Z -> gmap string number.
Variable _allClassData : list ClassData.
Variable _allCharacterColors : gmap string CharacterColor.
Variable _statNames : list string.

Let click := radarChartClick getStatsAtLevel _allClassData
                             _allCharacterColors _statNames.

(** X22: [radarChartClick] rejects a click exactly when no class box is
    checked, and then shows the one message it has and draws nothing.
    Otherwise it hides the error element and calls the assembler with
    the checked classes and the level of X17; the chart object returned
    is drawn as a new chart that [chart] names, and an error thrown
    leaves the handler with [chart] not reassigned. *)
Theorem radarChartClick_outcome (inputs : RadarInputs) (page : RadarPage) :
  let selectedClasses := getSelectedClasses (radarChecked inputs) in
  (selectedClasses = [] ->
   snd (click inputs page) = None
   /\ chart (fst (click inputs page)) = chart page
   /\ radarCharts (fst (click inputs page))
      = destroyIfSet (chart page) (radarCharts page)
   /\ isHidden (radarError (fst (click inputs page))) = false
   /\ innerHTML (radarError (fst (click inputs page)))
      = "<div>Please select atleast one class.</div>"%string)
  /\ (selectedClasses <> [] ->
      isHidden (radarError (fst (click inputs page))) = true
      /\ innerHTML (radarError (fst (click inputs page))) = ""%string
      /\ match assembleRadarChartObject getStatsAtLevel selectedClasses
                 _allClassData _allCharacterColors
                 (radarSelectedLevel (tbLevel inputs)) _statNames with
         | Ok obj =>
             snd (click inputs page) = None
             /\ chart (fst (click inputs page))
                = Some (created (radarCharts page))
             /\ alive (radarCharts (fst (click inputs page)))
                  !! created (radarCharts page) = Some obj
         | Err err =>
             snd (click inputs page) = Some err
             /\ chart (fst (click inputs page)) = chart page
         end).
Proof.
  intros selectedClasses. unfold click, radarChartClick. cbv zeta.
  fold selectedClasses. unfold radarChartValidation. cbv zeta. split.
  - intros ->. cbn [length Nat.ltb Nat.leb rejectIf isValid errorMessages
                    fst snd chart radarCharts radarError app].
    repeat (split; [reflexivity |]).
    split; [apply isHidden_showError | reflexivity].
  - intros Hne.
    assert ((length selectedClasses <? 1)%nat = false) as ->.
    { destruct selectedClasses; [congruence | reflexivity]. }
    cbn [rejectIf isValid].
    destruct (assembleRadarChartObject _ _ _ _ _ _) as [obj | err];
      cbn [fst snd chart radarCharts radarError newChart alive].
    + split; [apply isHidden_hideError |]. split; [reflexivity |].
      split; [reflexivity |]. split.
      * destruct page as [g el [n al]]. destruct g; reflexivity.
      * destruct page as [g el [n al]].
        destruct g; simpl; apply lookup_insert_eq.
    + split; [apply isHidden_hideError |]. split; [reflexivity |].
      split; reflexivity.
Qed.

Lemma radarChartClick_keeps_one_chart (inputs : RadarInputs)
    (page : RadarPage) :
  atMostOneChart (chart page) (radarCharts page) ->
  atMostOneChart (chart (fst (click inputs page)))
                 (radarCharts (fst (click inputs page))).
Proof.
  intros Hinv. pose proof (destroyIfSet_empty _ _ Hinv) as Hempty.
  unfold click, radarChartClick. cbv zeta.
  destruct (isValid _); [| left; exact Hempty].
  destruct (assembleRadarChartObject _ _ _ _ _ _) as [obj | err];
    [| left; exact Hempty].
  right. cbn [fst chart radarCharts newChart alive].
  eexists. eexists. split; [reflexivity |].
  rewrite Hempty. apply insert_empty.
Qed.

(** X23: after any series of clicks on a radar page on which at most the
    chart named by [chart] was alive, at most one chart is alive on the
    canvas, and it is the one [chart] names. *)
Theorem radarChartClicks_one_chart (clicks : list RadarInputs)
    (page : RadarPage) :
  atMostOneChart (chart page) (radarCharts page) ->
  let page' := radarChartClicks getStatsAtLevel _allClassData
                                _allCharacterColors _statNames clicks page in
  atMostOneChart (chart page') (radarCharts page')
  /\ (size (alive (radarCharts page')) <= 1)%nat.
Proof.
  intros Hinv page'.
  assert (H : atMostOneChart (chart page') (radarCharts page')).
  { subst page'. unfold radarChartClicks. revert page Hinv.
    induction clicks as [| inputs rest IH]; intros page Hinv; [exact Hinv |].
    cbn [fold_left]. apply IH. now apply radarChartClick_keeps_one_chart. }
  split; [exact H |]. eapply atMostOneChart_size; exact H.
Qed.

End RadarPageFacts.

Lemma radarChartClick_outcome_witness :
  snd (radarChartClick Sample.getStatsAtLevel Sample.allClassData
         Sample.allCharacterColors ["ATP"; "HP"; "TP"]%string
         {| tbLevel := Some 10; radarChecked := fun _ => false |}
         initialRadarPage) = None
  /\ innerHTML
       (radarError
          (fst (radarChartClick Sample.getStatsAtLevel Sample.allClassData
                  Sample.allCharacterColors ["ATP"; "HP"; "TP"]%string
                  {| tbLevel := Some 10; radarChecked := fun _ => false |}
                  initialRadarPage)))
     = "<div>Please select atleast one class.</div>"%string.
Proof.
  destruct (radarChartClick_outcome Sample.getStatsAtLevel
              Sample.allClassData Sample.allCharacterColors
              ["ATP"; "HP"; "TP"]%string
              {| tbLevel := Some 10; radarChecked := fun _ => false |}
              initialRadarPage) as [Hrej _].
  destruct Hrej as (H1 & _ & _ & _ & H2); [reflexivity |]. auto.
Defined.

Lemma radarChartClicks_one_chart_witness :
  (size
     (alive
        (radarCharts
           (radarChartClicks Sample.getStatsAtLevel Sample.allClassData
              Sample.allCharacterColors ["ATP"; "HP"; "TP"]%string
              [ {| tbLevel := Some 10%Z;
                   radarChecked := fun sel => String.eqb sel "#cbHUcast" |};
                {| tbLevel := None;
                   radarChecked := fun sel => String.eqb sel "#cbRAmar" |} ]
              initialRadarPage))) <= 1)%nat.
Proof.
  apply (radarChartClicks_one_chart Sample.getStatsAtLevel
           Sample.allClassData Sample.allCharacterColors
           ["ATP"; "HP"; "TP"]%string).
  left. reflexivity.
Defined.
